(** * tk-multi-publish2: publish tree check states and the Mari mipmap hook

    A shallow embedding of
    - [python/tk_multi_publish2/publish_tree_widget/tree_node_task.py]
      (module [PublishTree]), and
    - [hooks/mari/publish_mipmaps.py] (module [Mipmaps]),
    together with the properties the specification states about them. *)

From Stdlib Require Import ZArith String Ascii List Lia.
From stdpp Require Import base option list strings gmap.

(** ** The publish tree: task nodes and their check state *)

Module PublishTree.

(** [QtCore.Qt.CheckState]. *)
Inductive CheckState := Unchecked | PartiallyChecked | Checked.

#[global] Instance CheckState_eq_dec : EqDecision CheckState.
Proof. solve_decision. Defined.

(** A plugin object. Python compares plugins with [==] on objects that define
    no [__eq__], that is by identity: [plugin_id] stands for the identity of
    the object, the other fields are the attributes the tree node reads. *)
Record PluginDescriptor := {
  plugin_id : nat;
  name : string;
  icon : string
}.

#[global] Instance PluginDescriptor_eq_dec : EqDecision PluginDescriptor.
Proof. solve_decision. Defined.

(** The attributes of a task that [TreeNodeTask] reads. *)
Record Task := {
  plugin : PluginDescriptor;
  enabled : bool;
  active : bool;
  visible : bool
}.

(** A [TreeNodeTask]: the task it shows and the state of its checkbox. *)
Record TreeNodeTask := {
  _task : Task;
  check_state : CheckState
}.

(** The nodes of the tree widget: task nodes are leaves, item nodes own
    children. Nodes are objects; the widget is the store of these objects,
    addressed by their identity. *)
Inductive TreeNode :=
| NodeTask (node : TreeNodeTask)
| NodeItem (item_name : string) (item_check_state : CheckState)
           (children : list nat).

Abbreviation TreeWidget := (gmap nat TreeNode).

Definition node_check_state (n : TreeNode) : CheckState :=
  match n with
  | NodeTask t => check_state t
  | NodeItem _ cs _ => cs
  end.

(** Modelled from the spec: [TreeNodeBase.checked] (tree_node_base.py is not
    part of the sources at hand): a node is checked when its check box is in
    the checked state. *)
Definition checked (self : TreeNode) : bool :=
  bool_decide (node_check_state self = Checked).

(** The check state of the node [self] of a widget, if there is one. *)
Definition check_state_at (tree : TreeWidget) (self : nat) : option CheckState :=
  node_check_state <$> tree !! self.

(** Whether the node [self] of a widget is checked, if there is one. *)
Definition checked_at (tree : TreeWidget) (self : nat) : option bool :=
  checked <$> tree !! self.

Definition with_check_state (state : CheckState) (n : TreeNode) : TreeNode :=
  match n with
  | NodeTask t => NodeTask {| _task := _task t; check_state := state |}
  | NodeItem nm _ ch => NodeItem nm state ch
  end.

(** A base method that assigns the state to the node and touches nothing
    else; the simplest instance of [TreeNodeBase.set_check_state]. *)
Definition assign_check_state
    (self : nat) (state : CheckState) (tree : TreeWidget) : TreeWidget :=
  alter (with_check_state state) self tree.

Section Methods.

(** [TreeNodeBase.set_check_state], inherited from a class that is not part
    of the sources at hand: it is a parameter of the development. *)
Variable base_set_check_state : nat -> CheckState -> TreeWidget -> TreeWidget.

(** Modelled from the spec: what [set_check_state_for_all_plugins] does at
    one node of the tree (the tree widget is not part of the sources at
    hand): a task node of the plugin gets [set_check_state(state)] called on
    it alone, so that the state is assigned under the guard of the node, as
    the specification asks of every assignment; any other node is left. *)
Definition set_check_state_if_plugin
    (p : PluginDescriptor) (state : CheckState) (tree : TreeWidget)
    (child : nat) : TreeWidget :=
  match tree !! child with
  | Some (NodeTask node) =>
      if bool_decide (plugin (_task node) = p) then
        let state :=
          if negb (enabled (_task node)) && negb (active (_task node))
          then Unchecked else state in
        base_set_check_state child state tree
      else tree
  | _ => tree
  end.

(** Modelled from the spec: [PublishTreeWidget.set_check_state_for_all_plugins]
    (the tree widget is not part of the sources at hand). The specification
    says that the requested state is applied to every task of the tree that
    shares the plugin, whatever its position, and nowhere else: the widget
    visits every node of the tree. *)
Definition set_check_state_for_all_plugins
    (p : PluginDescriptor) (state : CheckState) (tree : TreeWidget) : TreeWidget :=
  foldl (set_check_state_if_plugin p state) tree (elements (dom tree)).

(** [TreeNodeTask.set_check_state(state, apply_to_all_plugins)], called on
    the node [self] of [tree]. The result is [None] when [self] is not a
    task node of the widget: the method does not exist there. *)
Definition set_check_state
    (self : nat) (state : CheckState) (apply_to_all_plugins : bool)
    (tree : TreeWidget) : option TreeWidget :=
  match tree !! self with
  | Some (NodeTask node) =>
      if apply_to_all_plugins then
        (* do it for all of the items *)
        Some (set_check_state_for_all_plugins (plugin (_task node)) state tree)
      else
        (* If the task is disabled and unchecked, do not allow the user to
           check it *)
        let state :=
          if negb (enabled (_task node)) && negb (active (_task node))
          then Unchecked else state in
        (* set just this one *)
        Some (base_set_check_state self state tree)
  | _ => None
  end.

End Methods.

(** What the specification says of the inherited method: the state is applied
    to the node it is called on. *)
Definition applies_to_self
    (base : nat -> CheckState -> TreeWidget -> TreeWidget) : Prop :=
  forall self state tree,
    is_Some (tree !! self) ->
    check_state_at (base self state tree) self = Some state.


(** [TreeNodeTask.create_summary]. *)
Definition create_summary (self : TreeNodeTask) : list string :=
  if checked (NodeTask self) then [name (plugin (_task self))] else [].

End PublishTree.

(** ** The Mari mipmap publish hook *)

Module Mipmaps.

(** *** Python values, exceptions and effects *)

(** A Python value that is a [str] or [None]. *)
Abbreviation pystr := (option string).

(** A Python value that is an [int] or [None]. *)
Abbreviation pyint := (option Z).

(** [str(x)], which is also what [str.format] substitutes for a placeholder. *)
Definition py_str (x : pystr) : string :=
  match x with
  | Some s => s
  | None => "None"
  end.

(** Truth value of a [str] or [None]: [None] and the empty string are false. *)
Definition truthy_str (x : pystr) : bool :=
  match x with
  | Some s => negb (String.eqb s "")
  | None => false
  end.

(** Truth value of an [int] or [None]: [None] and [0] are false. *)
Definition truthy_int (x : pyint) : bool :=
  match x with
  | Some z => negb (Z.eqb z 0)
  | None => false
  end.

(** The exceptions the hook meets; each carries its message. *)
Inductive exn :=
| TankError (msg : string)
| AttributeError (msg : string)
| OSError (msg : string).

(** [str(e)]. *)
Definition exn_str (e : exn) : string :=
  match e with
  | TankError msg | AttributeError msg | OSError msg => msg
  end.

Inductive level := LDebug | LWarning | LError.

(** What a run leaves behind: the records handed to [self.logger] and the
    textures OpenImageIO was asked to make, in the order of the calls. *)
Inductive event :=
| Log (lvl : level) (msg : string)
| MakeTexture (source target filtername : string).

Inductive result (A : Type) :=
| Raise (e : exn)
| Return (a : A).
Arguments Raise {A} e.
Arguments Return {A} a.

(** A computation extends the trace of events and returns or raises. *)
Definition M (A : Type) : Type := list event -> list event * result A.

Definition ret {A} (a : A) : M A := fun tr => (tr, Return a).

Definition raise {A} (e : exn) : M A := fun tr => (tr, Raise e).

Definition bind {A B} (c : M A) (k : A -> M B) : M B :=
  fun tr =>
    match c tr with
    | (tr', Return a) => k a tr'
    | (tr', Raise e) => (tr', Raise e)
    end.

(** [try: c except Exception as e: h e]. *)
Definition try_except {A} (c : M A) (h : exn -> M A) : M A :=
  fun tr =>
    match c tr with
    | (tr', Return a) => (tr', Return a)
    | (tr', Raise e) => h e tr'
    end.

Definition emit (ev : event) : M unit := fun tr => (tr ++ [ev], Return tt).

Definition logger (lvl : level) (msg : string) : M unit := emit (Log lvl msg).

Declare Scope py_scope.
Delimit Scope py_scope with py.
Notation "x <- c ;; k" := (bind c (fun x => k))
  (at level 100, c at next level, right associativity) : py_scope.
Notation "c ;;; k" := (bind c (fun _ => k))
  (at level 100, right associativity) : py_scope.

(** *** The data the hook works on *)

(** An entry of the [publish_plugins] setting of the application:
    [plugin_item["name"]] and [plugin_item["hook"].value]. *)
Record PluginItem := {
  plugin_name : string;
  hook : string
}.

(** An item: its name and its local properties, one property mapping for each
    plugin instance key. *)
Record Item := {
  name : string;
  _local_properties : gmap string (gmap string string)
}.

(** The settings of a task; the methods below pass them on. *)
Abbreviation Settings := (gmap string string).

(** What the hook calls outside its own file: the publisher application
    ([self.parent]) with its settings and its [util] module, the toolkit's
    path and folder helpers, [traceback] and OpenImageIO. *)
Record Host := {
  publish_plugins : list PluginItem;
  get_frame_number : pystr -> pyint;
  get_path_for_frame : string -> pyint -> pystr;
  get_frame_sequence_path : pystr -> pystr;
  get_sequence_path_files : pystr -> list pystr;
  normalize : string -> string;
  dirname : string -> string;
  ensure_folder_exists : string -> result unit;
  format_exc : exn -> string;
  make_texture : string -> string -> string -> bool
}.

Definition INPUT_PLUGIN_NAME : string := "Publish Textures".

Section Hook.

(** The plugin instance: what [self] gives access to. *)
Variable self : Host.

Local Open Scope py_scope.

(** [_create_mipmap]: OpenImageIO makes the texture from the source image,
    with the lanczos3 filter, and reports whether it succeeded. *)
Definition _create_mipmap (source_path : pystr) (target_path : string) : M bool :=
  (* cast here as OIIO has an issue with unicode strings *)
  let source_path := py_str source_path in
  let target_path := py_str (Some target_path) in
  emit (MakeTexture source_path target_path "lanczos3") ;;;
  ret (make_texture self source_path target_path "lanczos3").

(** The body of the [for] loop of [create_mipmaps_for_seq], iterated over the
    remaining source paths; [mipmap_paths] is the list built so far. *)
Fixpoint create_mipmaps_loop
    (source_paths : list pystr) (target_seq_path : string)
    (mipmap_paths : list string) : M (list string) :=
  match source_paths with
  | [] => ret mipmap_paths
  | source_path :: source_paths =>
      let frame := get_frame_number self source_path in
      target_path <-
        (if truthy_int frame then
           let target_path := get_path_for_frame self target_seq_path frame in
           if negb (truthy_str target_path) then
             (* We do not want the conversion of multiple images to overwrite
                a single target path. Something is wrong with the
                configuration. *)
             raise (TankError ("Source path: " +:+ py_str source_path +:+
                               " contains a frame number, but target path: " +:+
                               py_str target_path +:+ " does not."))
           else ret (py_str target_path)
         else ret target_seq_path) ;;
      created <- _create_mipmap source_path target_path ;;
      if negb created then
        logger LWarning ("Mipmap not created for: " +:+ target_path) ;;;
        create_mipmaps_loop source_paths target_seq_path mipmap_paths
      else
        create_mipmaps_loop source_paths target_seq_path
                            (mipmap_paths ++ [target_path])
  end.

(** [create_mipmaps_for_seq]. *)
Definition create_mipmaps_for_seq
    (source_paths : list pystr) (target_seq_path : string) : M (list string) :=
  create_mipmaps_loop source_paths target_seq_path [].

(** The [for] loop of [_get_dependency_paths]: the hook value of the first
    entry named [INPUT_PLUGIN_NAME], [None] when the loop ends without one. *)
Fixpoint find_input_key (plugins : list PluginItem) : pystr :=
  match plugins with
  | [] => None
  | plugin_item :: plugins =>
      if String.eqb (plugin_name plugin_item) INPUT_PLUGIN_NAME
      then Some (hook plugin_item)
      else find_input_key plugins
  end.

(** [_get_dependency_paths]. [dict.get] answers [None] for a missing key, and
    calling [.get] on that [None] raises [AttributeError]. *)
Definition _get_dependency_paths
    (task_settings : Settings) (item : Item) : M (list pystr) :=
  let key := find_input_key (publish_plugins self) in
  if negb (truthy_str key) then
    raise (TankError ("Publish Mipmaps needs the output of " +:+
                      INPUT_PLUGIN_NAME +:+ " to run"))
  else
    match _local_properties item !! py_str key with
    | None => raise (AttributeError "'NoneType' object has no attribute 'get'")
    | Some props =>
        let publish_path_texture := props !! "publish_path" in
        ret [publish_path_texture]
    end.

(** The first [for] loop of [publish_files]: a file sequence is replaced by
    its files, any other path is kept. *)
Fixpoint expand_source_paths (source_path_list : list pystr) : list pystr :=
  match source_path_list with
  | [] => []
  | source_path :: source_path_list =>
      let seq_path := get_frame_sequence_path self source_path in
      (if truthy_str seq_path
       then get_sequence_path_files self source_path
       else [source_path]) ++ expand_source_paths source_path_list
  end.

(** The [try] block of [publish_files]. *)
Definition publish_files_try
    (task_settings : Settings) (item : Item) (target_path : string)
    : M (list string) :=
  (* ensure the publish folder exists *)
  let publish_folder := dirname self target_path in
  (fun tr => (tr, ensure_folder_exists self publish_folder)) ;;;
  source_path_list <- _get_dependency_paths task_settings item ;;
  let source_paths_expanded := expand_source_paths source_path_list in
  (* write mipmaps for each file in the sequence *)
  create_mipmaps_for_seq source_paths_expanded target_path.

(** [publish_files]. *)
Definition publish_files
    (task_settings : Settings) (item : Item) (publish_path : string)
    : M (list string) :=
  let target_path := normalize self publish_path in
  mipmap_paths <-
    try_except (publish_files_try task_settings item target_path)
      (fun e =>
         logger LError (format_exc self e) ;;;
         raise (TankError ("Failed to publish file for item '" +:+ name item +:+
                           "': " +:+ exn_str e))) ;;
  logger LDebug ("Published file for item '" +:+ name item +:+ "' to '" +:+
                 target_path +:+ "'.") ;;;
  ret mipmap_paths.

End Hook.

(** Modelled from the spec: writing a local-scope property of an item
    ([Item.local_properties] belongs to the publish API, which is not part of
    the sources at hand). The properties written by a plugin go to the
    mapping kept under that plugin's instance key; the mapping is created on
    the first write. *)
Definition set_local_property
    (key prop value : string) (item : Item) : Item :=
  {| name := name item;
     _local_properties :=
       <[key := <[prop := value]> (default ∅ (_local_properties item !! key))]>
         (_local_properties item) |}.

(** [GenericLocalPlugin.accept] of the test fixtures, run as the plugin
    instance [key]: it tags the item in its local scope and accepts it. *)
Definition generic_local_accept (key : string) (item : Item) : Item * bool :=
  (set_local_property key "plugin_name" "local" item, true).

(** [needle in haystack] for strings. *)
Fixpoint is_substring (needle haystack : string) : bool :=
  String.prefix needle haystack ||
  match haystack with
  | EmptyString => false
  | String _ rest => is_substring needle rest
  end.

End Mipmaps.

(** ** Statements of the specification, in the terms of the embedding *)

Module HookSpec.
Import Mipmaps.

(** The target path the specification gives a source path: the frame of a
    source that has one, substituted into the target, and the target as it is
    for any other source. *)
Definition resolves (self : Host) (target_seq_path : string)
    (source_path : pystr) (target_path : string) : Prop :=
  (truthy_int (get_frame_number self source_path) = true /\
   get_path_for_frame self target_seq_path (get_frame_number self source_path)
     = Some target_path /\
   target_path <> ""%string) \/
  (truthy_int (get_frame_number self source_path) = false /\
   target_path = target_seq_path).

(** Whether the conversion of a source to a target succeeds. *)
Definition converts (self : Host) (st : pystr * string) : bool :=
  make_texture self (py_str st.1) st.2 "lanczos3".

(** The events one conversion leaves: the call, and a warning if it failed. *)
Definition conversion_events (self : Host) (st : pystr * string) : list event :=
  MakeTexture (py_str st.1) st.2 "lanczos3" ::
  (if converts self st then []
   else [Log LWarning ("Mipmap not created for: " +:+ st.2)]).

(** The message of the fault [publish_files] raises for a failure [e]. *)
Definition publish_failure_message (item : Item) (e : exn) : string :=
  "Failed to publish file for item '" +:+ name item +:+ "': " +:+ exn_str e.

End HookSpec.

(** ** Concrete trees, hosts and items *)

Module Examples.
Import PublishTree Mipmaps.

Definition textures_plugin : PluginDescriptor :=
  {| plugin_id := 1; PublishTree.name := "Publish Textures"; icon := "textures.png" |}.

Definition mipmaps_plugin : PluginDescriptor :=
  {| plugin_id := 2; PublishTree.name := "Publish Mipmap from Mari Textures";
     icon := "mipmaps.png" |}.

Definition task_of (p : PluginDescriptor) (en act : bool) : Task :=
  {| plugin := p; enabled := en; active := act; visible := true |}.

Definition task_node (p : PluginDescriptor) (en act : bool) (cs : CheckState)
    : TreeNode :=
  NodeTask {| _task := task_of p en act; check_state := cs |}.

(** A tree with one task that is disabled but active. *)
Definition locked_tree : TreeWidget :=
  {[ 0 := task_node textures_plugin false true Unchecked ]}.

(** A tree with one task that is disabled and inactive. *)
Definition greyed_tree : TreeWidget :=
  {[ 0 := task_node textures_plugin false false PartiallyChecked ]}.


(** Two items, each with a texture task and a mipmap task. *)
Definition two_item_tree : TreeWidget :=
  list_to_map
    [ (0, NodeItem "diffuse" Unchecked [1; 2]);
      (1, task_node textures_plugin true true Unchecked);
      (2, task_node mipmaps_plugin true true Unchecked);
      (3, NodeItem "specular" PartiallyChecked [4; 5]);
      (4, task_node textures_plugin true false Unchecked);
      (5, task_node mipmaps_plugin true true Checked) ].

Definition frame_table : list (string * Z) :=
  [ ("a.1001.exr", 1001); ("a.1002.exr", 1002); ("broken.1003.exr", 1003);
    ("a.0000.exr", 0); ("a.0001.exr", 1) ]%string%Z.

Definition target_table : list (Z * string) :=
  [ (1001, "out.1001.tif"); (1002, "out.1002.tif"); (1003, "out.1003.tif");
    (0, "out.0000.tif"); (1, "out.0001.tif") ]%string%Z.

Definition example_get_frame_number (path : pystr) : pyint :=
  match path with
  | Some p => snd <$> List.find (fun e => String.eqb (fst e) p) frame_table
  | None => None
  end.

Definition example_get_path_for_frame (path : string) (frame : pyint) : pystr :=
  match frame with
  | Some f =>
      if String.eqb path "out.####.tif"
      then snd <$> List.find (fun e => Z.eqb (fst e) f) target_table
      else None
  | None => None
  end.

Definition example_host (plugins : list PluginItem) : Host :=
  {| publish_plugins := plugins;
     get_frame_number := example_get_frame_number;
     get_path_for_frame := example_get_path_for_frame;
     get_frame_sequence_path := fun _ => None;
     get_sequence_path_files := fun p => [p];
     normalize := fun p => p;
     dirname := fun _ => "/proj/publish"%string;
     ensure_folder_exists := fun _ => Return tt;
     format_exc := fun e => ("Traceback: " +:+ exn_str e)%string;
     make_texture := fun source _ _ => negb (String.eqb source "broken.1003.exr") |}.

Definition textures_entry : PluginItem :=
  {| plugin_name := "Publish Textures"; hook := "{config}/publish_textures.py" |}.

Definition shotgun_entry : PluginItem :=
  {| plugin_name := "Publish to Shotgun"; hook := "{self}/publish_file.py" |}.

Definition channel_item : Item :=
  {| Mipmaps.name := "diffuse"; _local_properties := ∅ |}.

End Examples.

(** ** The rest of the task node: its widget, its label, its constructor *)

Module TaskNodeWidget.
Import PublishTree.

(** [QtCore.Qt.ItemIsSelectable]. *)
Definition ItemIsSelectable : Z := 1.

(** The Qt state of a task node that [TreeNodeTask] sets itself: the item
    flags, whether the row is hidden, and whether its check box is enabled. *)
Record NodeWidget := {
  flags : Z;
  hidden : bool;
  checkbox_enabled : bool
}.

(** [TreeNodeTask.set_check_enabled]. *)
Definition set_check_enabled
    (self : TreeNodeTask) (state : bool) (w : NodeWidget) : NodeWidget :=
  (* First ensure that we are not enabling a node that has been disabled by
     its task *)
  let state := state && enabled (_task self) in
  {| flags := flags w; hidden := hidden w; checkbox_enabled := state |}.

(** [TreeNodeTask.__str__]. *)
Definition __str__ (self : TreeNodeTask) : string :=
  name (plugin (_task self)).

(** [TreeNodeTask.__repr__]. *)
Definition __repr__ (self : TreeNodeTask) : string :=
  "<TreeNodeTask " +:+ __str__ self +:+ ">".

(** The [task] property. *)
Definition task (self : TreeNodeTask) : Task := _task self.

(** [TreeNodeTask.get_publish_instance]. *)
Definition get_publish_instance (self : TreeNodeTask) : Task := task self.

Section Init.

Variable base_set_check_state : nat -> CheckState -> TreeWidget -> TreeWidget.

(** [TreeNodeTask.__init__] from the line after [super().__init__(parent)]:
    the node [self] is in the tree with its task, [w] is its Qt state. *)
Definition init_after_super
    (self : nat) (w : NodeWidget) (tree : TreeWidget)
    : option (TreeWidget * NodeWidget) :=
  match tree !! self with
  | Some (NodeTask node) =>
      (* tasks cannot be dragged or dropped on *)
      let w := {| flags := Z.lor (flags w) ItemIsSelectable;
                  hidden := hidden w;
                  checkbox_enabled := checkbox_enabled w |} in
      (* hide the plugin in the tree if the task is set to hidden *)
      let w := {| flags := flags w;
                  hidden := negb (visible (_task node));
                  checkbox_enabled := checkbox_enabled w |} in
      (* set up defaults based on task settings *)
      match set_check_state base_set_check_state self Checked false tree with
      | Some tree =>
          Some (tree, set_check_enabled node (enabled (_task node)) w)
      | None => None
      end
  | _ => None
  end.

End Init.

(** The Qt state after a series of [set_check_enabled] calls. *)
Definition set_check_enabled_all
    (self : TreeNodeTask) (states : list bool) (w : NodeWidget) : NodeWidget :=
  foldl (fun w state => set_check_enabled self state w) w states.

(** A node whose task is disabled but active, and the Qt state of a row that
    is shown with its check box enabled. *)
Definition locked_node : TreeNodeTask :=
  {| _task := Examples.task_of Examples.textures_plugin false true;
     check_state := Checked |}.

Definition shown_widget : NodeWidget :=
  {| flags := 32; hidden := false; checkbox_enabled := true |}.

End TaskNodeWidget.

(** ** The validation of the mipmap hook *)

Module Validation.
Import Mipmaps.

(** An OpenImageIO image output: the features it supports. *)
Record ImageOutput := {
  supports : string -> bool
}.

(** What [validate] calls outside the hook's own file: the [validate] of the
    base class, the properties of the item, the toolkit's path helper,
    [os.path.splitext] and [oiio.ImageOutput.create], which answers [None]
    when no plugin writes the format. *)
Record Env := {
  super_validate : Settings -> Item -> M bool;
  get_property : Item -> string -> string;
  normalize : string -> string;
  splitext : string -> string * string;
  image_output_create : string -> option ImageOutput
}.

Section Validate.

Variable self : Env.

Local Open Scope py_scope.

(** [_valid_for_mipmap_multiimage]. *)
Definition _valid_for_mipmap_multiimage (target_path : string) : M bool :=
  let _target := image_output_create self (py_str (Some target_path)) in
  match _target with
  | None =>
      logger LWarning ("Issues locating OIIO plugin for '" +:+
                       (splitext self target_path).2 +:+ "'") ;;;
      ret false
  | Some _target =>
      ret (supports _target "mipmap" || supports _target "multiimage")
  end.

(** [validate]. *)
Definition validate (task_settings : Settings) (item : Item) : M bool :=
  valid <- super_validate self task_settings item ;;
  if negb valid then ret false
  else
    let publish_path := normalize self (get_property self item "publish_path") in
    supported <- _valid_for_mipmap_multiimage publish_path ;;
    if negb supported then
      let error_msg :=
        "Failed to find OIIO plugin or mipmap not supported for extension: " +:+
        (splitext self publish_path).2 +:+ " Validation failed." in
      logger LError error_msg ;;;
      ret false
    else ret true.

End Validate.

End Validation.

(** ** The publish path and name of the mipmap hook *)

Module PublishPath.

(** The values met in fields and settings: [None], a [str] or an [int]. *)
Inductive atom := ANone | AStr (s : string) | AInt (z : Z).

(** A property of an item: a plain value or a dictionary of fields. *)
Inductive pyvalue :=
| Atom (a : atom)
| Dict (d : gmap string atom).

(** [type(v).__name__]. *)
Definition type_name (v : pyvalue) : string :=
  match v with
  | Atom ANone => "NoneType"
  | Atom (AStr _) => "str"
  | Atom (AInt _) => "int"
  | Dict _ => "dict"
  end.

(** A setting object and its [value]. *)
Record Setting := {
  value : atom
}.

(** An item as these methods see it: its name, its global properties and the
    local properties of the plugin instance that is running. *)
Record Item := {
  name : string;
  properties : gmap string pyvalue;
  local_properties : gmap string pyvalue
}.

Inductive exn :=
| TankError (msg : string)
| TypeError (msg : string).

Inductive outcome (A : Type) :=
| Raise (e : exn)
| Return (a : A).
Arguments Raise {A} e.
Arguments Return {A} a.

(** A method call may change the item it is given. *)
Definition P (A : Type) : Type := Item -> Item * outcome A.

(** [item.local_properties[key] = v]. *)
Definition set_local (key : string) (v : pyvalue) (item : Item) : Item :=
  {| name := name item;
     properties := properties item;
     local_properties := <[key := v]> (local_properties item) |}.

Section Methods.

(** [item.get_property], of the publish API. *)
Variable get_property : Item -> string -> pyvalue.

(** The methods of the base class. *)
Variable super_get_publish_path : gmap string Setting -> P string.
Variable super_get_publish_name : gmap string Setting -> P string.

(** [_get_publish_path]. A setting object counts as true; [get] answers
    [None] for a setting that is not there. *)
Definition _get_publish_path (task_settings : gmap string Setting) : P string :=
  fun item =>
    match task_settings !! "publish_extension" with
    | None =>
        (item, Raise (TankError ("publish_extension not set for item: " +:+
                                 name item)))
    | Some extension =>
        (* override the fields for this plugin, if not already done *)
        match local_properties item !! "fields" with
        | Some _ => super_get_publish_path task_settings item
        | None =>
            let fields := get_property item "fields" in
            let item := set_local "fields" fields item in
            match fields with
            | Dict d =>
                let item :=
                  set_local "fields"
                            (Dict (<["extension" := value extension]> d)) item in
                super_get_publish_path task_settings item
            | _ =>
                (item, Raise (TypeError ("'" +:+ type_name fields +:+
                                "' object does not support item assignment")))
            end
        end
    end.

(** [_get_publish_name]. *)
Definition _get_publish_name (task_settings : gmap string Setting) : P string :=
  fun item =>
    match task_settings !! "publish_extension" with
    | None =>
        (item, Raise (TankError ("publish_extension not set for item: " +:+
                                 name item)))
    | Some extension =>
        (* override the fields for this plugin, if not already done *)
        match local_properties item !! "fields" with
        | Some _ => super_get_publish_name task_settings item
        | None =>
            let fields := get_property item "fields" in
            let item := set_local "fields" fields item in
            match fields with
            | Dict d =>
                let item :=
                  set_local "fields"
                            (Dict (<["extension" := value extension]> d)) item in
                super_get_publish_name task_settings item
            | _ =>
                (item, Raise (TypeError ("'" +:+ type_name fields +:+
                                "' object does not support item assignment")))
            end
        end
    end.

End Methods.

End PublishPath.

(** ** The local plugin of the test fixtures *)

Module GenericLocal.
Import Mipmaps.

Inductive failure :=
| Exception (msg : string)
| AttributeError (msg : string).

(** [GenericLocalPlugin.name]. *)
Definition name : string := "Publish Plugin that runs LOCALLY".

(** [GenericLocalPlugin.item_filters]. *)
Definition item_filters : list string := ["generic.item"%string].

(** [GenericLocalPlugin.accept], run as the plugin instance [key]. *)
Definition accept (key : string) (item : Item) : Item * bool :=
  generic_local_accept key item.

(** [item.local_properties.plugin_name], read by the plugin instance [key]:
    an attribute that was never set raises [AttributeError]. *)
Definition local_plugin_name (key : string) (item : Item) : failure + string :=
  match default ∅ (_local_properties item !! key) !! "plugin_name" with
  | Some v => inr v
  | None => inl (AttributeError
                   "'PublishData' object has no attribute 'plugin_name'")
  end.

(** [GenericLocalPlugin.validate], run as the plugin instance [key] with the
    environment variables [environ]. *)
Definition validate (environ : gset string) (key : string) (item : Item)
    (tr : list event) : list event * (failure + bool) :=
  let proceed :=
    (tr ++ [Log LDebug "Executing local plugin validate."], inr true) in
  if bool_decide ("TEST_LOCAL_PROPERTIES" ∈ environ) then
    (* local properties was properly set, so make sure it raises an error *)
    match local_plugin_name key item with
    | inl e => (tr, inl e)
    | inr plugin_name =>
        if String.eqb plugin_name "local"
        then (tr, inl (Exception "local_properties was serialized properly."))
        else proceed
    end
  else proceed.

(** [GenericLocalPlugin.publish]. *)
Definition publish (item : Item) (tr : list event) : list event * unit :=
  (tr ++ [Log LDebug "Executing local plugin publish."], tt).

(** [GenericLocalPlugin.finalize]. *)
Definition finalize (item : Item) (tr : list event) : list event * unit :=
  (tr ++ [Log LDebug "Executing local plugin finalize."], tt).

End GenericLocal.

(** ** More concrete hosts, environments and items *)

Module MoreExamples.
Import Mipmaps Examples.

(** A host whose publish folder cannot be created. *)
Definition readonly_host (plugins : list PluginItem) : Host :=
  {| publish_plugins := plugins;
     get_frame_number := example_get_frame_number;
     get_path_for_frame := example_get_path_for_frame;
     get_frame_sequence_path := fun _ => None;
     get_sequence_path_files := fun p => [p];
     Mipmaps.normalize := fun p => p;
     dirname := fun _ => "/proj/publish"%string;
     ensure_folder_exists :=
       fun _ => Raise (OSError "[Errno 13] Permission denied: '/proj/publish'");
     format_exc := fun e => ("Traceback: " +:+ exn_str e)%string;
     make_texture := fun _ _ _ => true |}.

(** An item whose texture was published by the upstream plugin. *)
Definition published_item : Item :=
  set_local_property "{config}/publish_textures.py" "publish_path"
                     "/proj/tex/diffuse.exr" channel_item.

(** The extension of a path, for the paths of the examples. *)
Definition example_splitext (path : string) : string * string :=
  if String.eqb path "/proj/publish/diffuse.tx" then ("/proj/publish/diffuse", ".tx")
  else if String.eqb path "/proj/publish/diffuse.png" then ("/proj/publish/diffuse", ".png")
  else if String.eqb path "/proj/publish/diffuse.xyz" then ("/proj/publish/diffuse", ".xyz")
  else (path, "")%string.

(** OpenImageIO writes [.tx] files with mipmaps, [.png] files without mipmaps
    or several images, and nothing else. *)
Definition example_image_output_create (path : string)
    : option Validation.ImageOutput :=
  if String.eqb path "/proj/publish/diffuse.tx"
  then Some {| Validation.supports := fun feature => String.eqb feature "mipmap" |}
  else if String.eqb path "/proj/publish/diffuse.png"
  then Some {| Validation.supports := fun _ => false |}
  else None.

(** An environment whose base class accepts or refuses an item after one
    debug record, and where the publish path of every item is [path]. *)
Definition example_env (accepts : bool) (path : string) : Validation.Env :=
  {| Validation.super_validate :=
       fun _ _ tr => (tr ++ [Log LDebug "base validate"], Return accepts);
     Validation.get_property := fun _ _ => path;
     Validation.normalize := fun p => p;
     Validation.splitext := example_splitext;
     Validation.image_output_create := example_image_output_create |}.

End MoreExamples.

(** ** Concrete items and base methods for the publish path *)

Module PathExamples.
Import PublishPath.

(** [get_property] as the publish API documents it: the local property if
    there is one, else the global one, else [None]. *)
Definition example_get_property (item : Item) (key : string) : pyvalue :=
  match local_properties item !! key with
  | Some v => v
  | None => default (Atom ANone) (properties item !! key)
  end.

(** The extension the base class would use: the one of the local fields. *)
Definition local_extension (item : Item) : string :=
  match local_properties item !! "fields" with
  | Some (Dict d) =>
      match d !! "extension" with
      | Some (AStr e) => e
      | _ => "?"
      end
  | _ => "?"
  end.

(** Base methods that build the path and the name from the name of the item
    and the extension of its local fields, and leave the item alone. *)
Definition example_super_path (_ : gmap string Setting) : P string :=
  fun item => (item, Return ("/proj/publish/" +:+ name item +:+ "." +:+
                             local_extension item)).

Definition example_super_name (_ : gmap string Setting) : P string :=
  fun item => (item, Return (name item +:+ "." +:+ local_extension item)).

Definition tx_settings : gmap string Setting :=
  {[ "publish_extension"%string := {| value := AStr "tx" |} ]}.

Definition tif_settings : gmap string Setting :=
  {[ "publish_extension"%string := {| value := AStr "tif" |} ]}.

Definition exr_fields : gmap string atom :=
  {[ "extension"%string := AStr "exr"; "version"%string := AInt 3 ]}.

(** An item with global fields and no local ones. *)
Definition fresh_item : Item :=
  {| name := "diffuse";
     properties := {[ "fields"%string := Dict exr_fields ]};
     local_properties := ∅ |}.

(** An item without fields. *)
Definition bare_item : Item :=
  {| name := "diffuse"; properties := ∅; local_properties := ∅ |}.

End PathExamples.

(** ** Properties of the publish tree *)

Module PublishTreeProps.
Import PublishTree Examples.

Lemma assign_check_state_applies_to_self : applies_to_self assign_check_state.
Proof.
  intros self state tree [n Hn].
  unfold check_state_at, assign_check_state.
  rewrite lookup_alter_eq, Hn. by destruct n.
Qed.

Lemma check_state_at_checked (tree : TreeWidget) (self : nat) (cs : CheckState) :
  check_state_at tree self = Some cs ->
  checked_at tree self = Some (bool_decide (cs = Checked)).
Proof.
  unfold check_state_at, checked_at, checked.
  destruct (tree !! self) as [n|]; simpl; [|done].
  by intros [= ->].
Qed.

(** C1, as stated, fails: a task that is disabled but active is checked by
    [set_check_state(Checked)]. The guard of the method only covers tasks
    that are both disabled and inactive. *)
Lemma set_check_state_disabled_active_checked :
  applies_to_self assign_check_state /\
  locked_tree !! 0 = Some (task_node textures_plugin false true Unchecked) /\
  enabled (task_of textures_plugin false true) = false /\
  (set_check_state assign_check_state 0 Checked false locked_tree
     ≫= fun tree' => checked_at tree' 0) = Some true.
Proof.
  split; [apply assign_check_state_applies_to_self|].
  repeat split; vm_compute; reflexivity.
Qed.

(** C1, amended: for every task with [enabled = false] and [active = false],
    [set_check_state] with any requested state, [Checked] included, and
    [apply_to_all_plugins] false hands [Unchecked] to the inherited method:
    the node ends unchecked, whatever its prior state. *)
Theorem set_check_state_disabled_inactive_unchecked
    (base : nat -> CheckState -> TreeWidget -> TreeWidget)
    (tree : TreeWidget) (self : nat) (node : TreeNodeTask) (state : CheckState) :
  applies_to_self base ->
  tree !! self = Some (NodeTask node) ->
  enabled (_task node) = false ->
  active (_task node) = false ->
  exists tree',
    set_check_state base self state false tree = Some tree' /\
    tree' = base self Unchecked tree /\
    check_state_at tree' self = Some Unchecked /\
    checked_at tree' self = Some false.
Proof.
  intros Hbase Hself Hen Hact.
  exists (base self Unchecked tree).
  assert (Hcs : check_state_at (base self Unchecked tree) self = Some Unchecked)
    by (apply Hbase; rewrite Hself; eauto).
  unfold set_check_state. rewrite Hself, Hen, Hact. simpl.
  repeat split; [exact Hcs|].
  by rewrite (check_state_at_checked _ _ _ Hcs).
Qed.

Lemma set_check_state_disabled_inactive_unchecked_witness :
  exists tree',
    set_check_state assign_check_state 0 Checked false greyed_tree = Some tree' /\
    tree' = assign_check_state 0 Unchecked greyed_tree /\
    check_state_at tree' 0 = Some Unchecked /\
    checked_at tree' 0 = Some false.
Proof.
  apply (set_check_state_disabled_inactive_unchecked assign_check_state
           greyed_tree 0
           {| _task := task_of textures_plugin false false;
              check_state := PartiallyChecked |} Checked).
  - apply assign_check_state_applies_to_self.
  - reflexivity.
  - reflexivity.
  - reflexivity.
Defined.


(** What the widget does at one node is what the node's own
    [set_check_state(state)] does. *)
Lemma set_check_state_if_plugin_is_set_check_state
    (base : nat -> CheckState -> TreeWidget -> TreeWidget)
    (tree : TreeWidget) (child : nat) (node : TreeNodeTask) (state : CheckState) :
  tree !! child = Some (NodeTask node) ->
  set_check_state base child state false tree =
  Some (set_check_state_if_plugin base (plugin (_task node)) state tree child).
Proof.
  intros Hchild. unfold set_check_state, set_check_state_if_plugin.
  rewrite Hchild. by rewrite bool_decide_eq_true_2.
Qed.






(** On the tree of two items the bulk check of the texture plugin checks the
    texture tasks of both items and leaves the items and the mipmap tasks. *)
Example two_item_tree_bulk_check :
  set_check_state assign_check_state 1 Checked true two_item_tree =
  Some (list_to_map
    [ (0, NodeItem "diffuse" Unchecked [1; 2]);
      (1, task_node textures_plugin true true Checked);
      (2, task_node mipmaps_plugin true true Unchecked);
      (3, NodeItem "specular" PartiallyChecked [4; 5]);
      (4, task_node textures_plugin true false Checked);
      (5, task_node mipmaps_plugin true true Checked) ]).
Proof. vm_compute. reflexivity. Qed.

(** C8: [create_summary] on a task node is the one-element list with the name
    of the task's plugin when the node is checked, and the empty list when it
    is not; the node is checked exactly when its check box is in the checked
    state. *)
Theorem create_summary_checked (self : TreeNodeTask) :
  create_summary self =
    (if checked (NodeTask self) then [name (plugin (_task self))] else []) /\
  create_summary self =
    match check_state self with
    | Checked => [name (plugin (_task self))]
    | Unchecked | PartiallyChecked => []
    end.
Proof.
  unfold create_summary, checked. simpl.
  split; [reflexivity|]. by destruct (check_state self).
Qed.

End PublishTreeProps.

(** ** Properties of the mipmap hook: dependency resolution *)

Module DependencyProps.
Import Mipmaps HookSpec Examples.

Lemma find_input_key_absent (plugins : list PluginItem) :
  (forall p, p ∈ plugins -> plugin_name p <> INPUT_PLUGIN_NAME) ->
  find_input_key plugins = None.
Proof.
  induction plugins as [|p plugins IH]; intros Hno; simpl; [reflexivity|].
  destruct (String.eqb_spec (plugin_name p) INPUT_PLUGIN_NAME) as [Heq|_].
  - exfalso. apply (Hno p); [left|exact Heq].
  - apply IH. intros q Hq. apply Hno. by right.
Qed.

Lemma find_input_key_present (plugins : list PluginItem) (key : string) :
  (exists p, p ∈ plugins /\ plugin_name p = INPUT_PLUGIN_NAME) ->
  (forall p, p ∈ plugins -> plugin_name p = INPUT_PLUGIN_NAME -> hook p = key) ->
  find_input_key plugins = Some key.
Proof.
  induction plugins as [|p plugins IH]; intros [q [Hq Hname]] Hkey.
  - by apply elem_of_nil in Hq.
  - simpl. destruct (String.eqb_spec (plugin_name p) INPUT_PLUGIN_NAME) as [Heq|Hne].
    + f_equal. apply Hkey; [left|exact Heq].
    + apply IH.
      * exists q. split; [|exact Hname].
        apply elem_of_cons in Hq as [->|Hq]; [contradiction|exact Hq].
      * intros r Hr. apply Hkey. by right.
Qed.

Lemma truthy_str_Some (key : string) :
  key <> ""%string -> truthy_str (Some key) = true.
Proof.
  intros Hne. simpl. by destruct (String.eqb_spec key "").
Qed.

(** C2: when no entry of the configured [publish_plugins] list is named like
    the upstream plugin, [_get_dependency_paths] raises a [TankError]; it
    returns nothing and logs nothing. *)
Theorem get_dependency_paths_unconfigured
    (self : Host) (task_settings : Settings) (item : Item) (tr : list event) :
  (forall p, p ∈ publish_plugins self -> plugin_name p <> INPUT_PLUGIN_NAME) ->
  _get_dependency_paths self task_settings item tr =
    (tr, Raise (TankError
                  "Publish Mipmaps needs the output of Publish Textures to run")).
Proof.
  intros Hno. unfold _get_dependency_paths.
  rewrite (find_input_key_absent _ Hno). reflexivity.
Qed.

Lemma get_dependency_paths_unconfigured_witness :
  _get_dependency_paths (example_host [shotgun_entry]) ∅ channel_item [] =
    ([], Raise (TankError
                  "Publish Mipmaps needs the output of Publish Textures to run")).
Proof.
  apply (get_dependency_paths_unconfigured (example_host [shotgun_entry])).
  intros p Hp. apply list_elem_of_singleton in Hp as ->. vm_compute. discriminate.
Defined.

(** Reading back what was written under a key. *)
Lemma lookup_set_local_property (key prop value : string) (item : Item) :
  _local_properties (set_local_property key prop value item) !! key
  = Some (<[prop := value]> (default ∅ (_local_properties item !! key))).
Proof. unfold set_local_property. simpl. apply lookup_insert_eq. Qed.

(** A write under another key leaves the properties under [key] alone. *)
Lemma lookup_set_local_property_ne (key key' prop value : string) (item : Item) :
  key' <> key ->
  _local_properties (set_local_property key' prop value item) !! key
  = _local_properties item !! key.
Proof. intros Hne. unfold set_local_property. simpl. by apply lookup_insert_ne. Qed.

(** C5: when the upstream plugin is configured with the instance key [key]
    (some entry of [publish_plugins] has its name, and the entries of that
    name have the hook value [key], which is not empty) and its task wrote a
    [publish_path] into the item's local scope under that key, then
    [_get_dependency_paths] returns the one-element list with exactly that
    path. *)
Theorem get_dependency_paths_round_trip
    (self : Host) (task_settings : Settings) (item : Item)
    (key path : string) (tr : list event) :
  (exists p, p ∈ publish_plugins self /\ plugin_name p = INPUT_PLUGIN_NAME) ->
  (forall p, p ∈ publish_plugins self ->
             plugin_name p = INPUT_PLUGIN_NAME -> hook p = key) ->
  key <> ""%string ->
  _get_dependency_paths self task_settings
    (set_local_property key "publish_path" path item) tr
  = (tr, Return [Some path]).
Proof.
  intros Hin Hkey Hne. unfold _get_dependency_paths.
  rewrite (find_input_key_present _ key Hin Hkey), (truthy_str_Some _ Hne).
  simpl. rewrite lookup_insert_eq. unfold ret. by rewrite lookup_insert_eq.
Qed.

Lemma get_dependency_paths_round_trip_witness :
  _get_dependency_paths (example_host [shotgun_entry; textures_entry]) ∅
    (set_local_property "{config}/publish_textures.py" "publish_path"
                        "/proj/tex/diffuse.1001.exr" channel_item) []
  = ([], Return [Some "/proj/tex/diffuse.1001.exr"%string]).
Proof.
  apply (get_dependency_paths_round_trip
           (example_host [shotgun_entry; textures_entry]) ∅ channel_item
           "{config}/publish_textures.py" "/proj/tex/diffuse.1001.exr" []).
  - exists textures_entry. split; [|reflexivity]. right. left.
  - intros p Hp Hname.
    apply elem_of_cons in Hp as [->|Hp]; [vm_compute in Hname; discriminate|].
    apply list_elem_of_singleton in Hp as ->. reflexivity.
  - discriminate.
Defined.

(** The round trip survives the [accept] of another plugin instance, which
    writes into its own local scope only. *)
Lemma get_dependency_paths_after_foreign_accept
    (self : Host) (task_settings : Settings) (item : Item)
    (key key' path : string) (tr : list event) :
  find_input_key (publish_plugins self) = Some key ->
  key <> ""%string ->
  key' <> key ->
  _get_dependency_paths self task_settings
    (generic_local_accept key'
       (set_local_property key "publish_path" path item)).1 tr
  = (tr, Return [Some path]).
Proof.
  intros Hfind Hne Hne'. unfold _get_dependency_paths, generic_local_accept.
  rewrite Hfind, (truthy_str_Some _ Hne). cbn [fst py_str negb].
  rewrite (lookup_set_local_property_ne _ _ _ _ _ Hne').
  rewrite lookup_set_local_property. unfold ret. by rewrite lookup_insert_eq.
Qed.

End DependencyProps.

(** ** Properties of the mipmap hook: the conversion of a list of sources *)

Module ConversionProps.
Import Mipmaps HookSpec Examples.

(** One turn of the loop: where the source goes, and how the loop goes on. *)
Lemma create_mipmaps_loop_step
    (self : Host) (source_path : pystr) (source_paths : list pystr)
    (target_seq_path : string) (mipmap_paths : list string) (tr : list event) :
  let continue target_path :=
    create_mipmaps_loop self source_paths target_seq_path
      (if converts self (source_path, target_path)
       then mipmap_paths ++ [target_path] else mipmap_paths)
      (tr ++ conversion_events self (source_path, target_path)) in
  let frame := get_frame_number self source_path in
  let substituted := get_path_for_frame self target_seq_path frame in
  create_mipmaps_loop self (source_path :: source_paths) target_seq_path
                      mipmap_paths tr =
  if truthy_int frame then
    if truthy_str substituted then continue (py_str substituted)
    else (tr, Raise (TankError
                       ("Source path: " +:+ py_str source_path +:+
                        " contains a frame number, but target path: " +:+
                        py_str substituted +:+ " does not.")))
  else continue target_seq_path.
Proof.
  cbn zeta. cbn [create_mipmaps_loop].
  unfold bind at 1.
  destruct (truthy_int (get_frame_number self source_path)).
  - destruct (truthy_str (get_path_for_frame self target_seq_path
                            (get_frame_number self source_path))); [|reflexivity].
    cbn [negb]. unfold conversion_events, converts. cbn [fst snd py_str].
    cbv beta iota zeta delta [bind ret emit logger _create_mipmap py_str].
    destruct (make_texture self _ _ _); cbn [negb]; [reflexivity|].
    by rewrite <- app_assoc.
  - unfold conversion_events, converts. cbn [fst snd py_str].
    cbv beta iota zeta delta [bind ret emit logger _create_mipmap py_str].
    destruct (make_texture self _ _ _); cbn [negb]; [reflexivity|].
    by rewrite <- app_assoc.
Qed.

Lemma resolves_step
    (self : Host) (target_seq_path : string) (source_path : pystr)
    (target_path : string) (source_paths : list pystr)
    (mipmap_paths : list string) (tr : list event) :
  resolves self target_seq_path source_path target_path ->
  create_mipmaps_loop self (source_path :: source_paths) target_seq_path
                      mipmap_paths tr =
  create_mipmaps_loop self source_paths target_seq_path
    (if converts self (source_path, target_path)
     then mipmap_paths ++ [target_path] else mipmap_paths)
    (tr ++ conversion_events self (source_path, target_path)).
Proof.
  intros Hres. rewrite create_mipmaps_loop_step. cbn zeta.
  destruct Hres as [(Hframe & Hsub & Hne) | (Hframe & ->)]; rewrite Hframe.
  - rewrite Hsub. simpl. by destruct (String.eqb_spec target_path "").
  - reflexivity.
Qed.

Lemma create_mipmaps_loop_resolved
    (self : Host) (target_seq_path : string)
    (source_paths : list pystr) (target_paths : list string) :
  Forall2 (resolves self target_seq_path) source_paths target_paths ->
  forall (mipmap_paths : list string) (tr : list event),
    create_mipmaps_loop self source_paths target_seq_path mipmap_paths tr =
    (tr ++ flat_map (conversion_events self) (combine source_paths target_paths),
     Return (mipmap_paths ++
             map snd (List.filter (converts self)
                                  (combine source_paths target_paths)))).
Proof.
  induction 1 as [|s t ss ts Hres _ IH]; intros acc tr.
  - simpl. unfold ret. by rewrite !app_nil_r.
  - rewrite (resolves_step _ _ _ _ _ _ _ Hres), IH.
    cbn [combine flat_map List.filter].
    rewrite <- app_assoc. f_equal. f_equal.
    destruct (converts self (s, t)); [|reflexivity].
    cbn [map snd]. by rewrite <- app_assoc.
Qed.

(** C4: when every source resolves to a target path, a conversion that fails
    is logged as a warning right after the call, its target path is left out
    of the returned list, and the loop goes on with the remaining sources:
    the events are the conversions of all the sources in order, with a
    warning after each one that failed, and the returned list is exactly the
    target paths whose conversion succeeded, in source order. *)
Theorem create_mipmaps_for_seq_skips_failures
    (self : Host) (target_seq_path : string)
    (source_paths : list pystr) (target_paths : list string) (tr : list event) :
  Forall2 (resolves self target_seq_path) source_paths target_paths ->
  create_mipmaps_for_seq self source_paths target_seq_path tr =
  (tr ++ flat_map (conversion_events self) (combine source_paths target_paths),
   Return (map snd (List.filter (converts self)
                                (combine source_paths target_paths)))).
Proof.
  intros Hres. unfold create_mipmaps_for_seq.
  by rewrite (create_mipmaps_loop_resolved _ _ _ _ Hres).
Qed.

Lemma create_mipmaps_for_seq_skips_failures_witness :
  create_mipmaps_for_seq (example_host [])
    [Some "a.1001.exr"; Some "broken.1003.exr"; Some "a.1002.exr"]%string
    "out.####.tif" [] =
  ([ MakeTexture "a.1001.exr" "out.1001.tif" "lanczos3";
     MakeTexture "broken.1003.exr" "out.1003.tif" "lanczos3";
     Log LWarning "Mipmap not created for: out.1003.tif";
     MakeTexture "a.1002.exr" "out.1002.tif" "lanczos3" ],
   Return ["out.1001.tif"; "out.1002.tif"]%string).
Proof.
  apply (create_mipmaps_for_seq_skips_failures (example_host []) "out.####.tif"
           [Some "a.1001.exr"; Some "broken.1003.exr"; Some "a.1002.exr"]%string
           ["out.1001.tif"; "out.1003.tif"; "out.1002.tif"]%string []).
  do 3 (constructor;
        [left; split; [reflexivity | split; [reflexivity | discriminate]]|]).
  constructor.
Defined.

(** The example of the specification: both frames are substituted into the
    target. *)
Example create_mipmaps_for_seq_sequence_export :
  (create_mipmaps_for_seq (example_host [])
     [Some "a.1001.exr"; Some "a.1002.exr"]%string "out.####.tif" []).2 =
  Return ["out.1001.tif"; "out.1002.tif"]%string.
Proof. vm_compute. reflexivity. Qed.

(** A source with a frame that counts as true whose substitution into the
    target yields nothing makes the whole operation raise a [TankError]. *)
Lemma create_mipmaps_loop_mismatch
    (self : Host) (target_seq_path : string) (source_paths : list pystr)
    (source_path : pystr) :
  source_path ∈ source_paths ->
  truthy_int (get_frame_number self source_path) = true ->
  truthy_str (get_path_for_frame self target_seq_path
                (get_frame_number self source_path)) = false ->
  forall (mipmap_paths : list string) (tr : list event),
  exists tr' msg,
    create_mipmaps_loop self source_paths target_seq_path mipmap_paths tr =
    (tr', Raise (TankError msg)).
Proof.
  intros Hin Hframe Hsub.
  induction source_paths as [|s ss IH]; intros acc tr.
  - by apply elem_of_nil in Hin.
  - rewrite create_mipmaps_loop_step. cbn zeta.
    destruct (truthy_int (get_frame_number self s)) eqn:Hf.
    + destruct (truthy_str (get_path_for_frame self target_seq_path
                              (get_frame_number self s))) eqn:Hs.
      * apply IH. apply elem_of_cons in Hin as [->|Hin]; [congruence|exact Hin].
      * eauto.
    + apply IH. apply elem_of_cons in Hin as [->|Hin]; [congruence|exact Hin].
Qed.

(** C3, at the failing input: the source [a.0000.exr] carries the frame
    number 0 and the target [out.tif] has no frame field, so that the
    substitution yields nothing; yet no error is raised, and the file is
    converted to the literal target path. *)
Theorem create_mipmaps_for_seq_frame_zero_no_error :
  get_frame_number (example_host []) (Some "a.0000.exr"%string) = Some 0%Z /\
  get_path_for_frame (example_host []) "out.tif" (Some 0%Z) = None /\
  create_mipmaps_for_seq (example_host []) [Some "a.0000.exr"%string] "out.tif" []
  = ([MakeTexture "a.0000.exr" "out.tif" "lanczos3"], Return ["out.tif"%string]).
Proof. repeat split; vm_compute; reflexivity. Qed.

(** C9, at the failing input: of the two frames of a sequence, frame 0 is
    converted to the literal target path, template and all, instead of the
    path with its frame substituted; frame 1 is substituted. *)
Theorem create_mipmaps_for_seq_frame_zero_literal :
  get_frame_number (example_host []) (Some "a.0000.exr"%string) = Some 0%Z /\
  get_path_for_frame (example_host []) "out.####.tif" (Some 0%Z)
    = Some "out.0000.tif"%string /\
  create_mipmaps_for_seq (example_host [])
    [Some "a.0000.exr"; Some "a.0001.exr"]%string "out.####.tif" []
  = ([ MakeTexture "a.0000.exr" "out.####.tif" "lanczos3";
       MakeTexture "a.0001.exr" "out.0001.tif" "lanczos3" ],
     Return ["out.####.tif"; "out.0001.tif"]%string).
Proof. repeat split; vm_compute; reflexivity. Qed.

(** A run whose first sources all resolve goes on with the remaining ones
    from the paths and events of those first sources. *)
Lemma create_mipmaps_loop_resolved_prefix
    (self : Host) (target_seq_path : string)
    (before : list pystr) (targets : list string) (rest : list pystr) :
  Forall2 (resolves self target_seq_path) before targets ->
  forall (mipmap_paths : list string) (tr : list event),
    create_mipmaps_loop self (before ++ rest) target_seq_path mipmap_paths tr =
    create_mipmaps_loop self rest target_seq_path
      (mipmap_paths ++
       map snd (List.filter (converts self) (combine before targets)))
      (tr ++ flat_map (conversion_events self) (combine before targets)).
Proof.
  induction 1 as [|s t ss ts Hres _ IH]; intros acc tr.
  - simpl. by rewrite !app_nil_r.
  - change ((s :: ss) ++ rest) with (s :: (ss ++ rest)).
    rewrite (resolves_step _ _ _ _ _ _ _ Hres), IH.
    cbn [combine flat_map List.filter]. rewrite <- app_assoc. f_equal.
    destruct (converts self (s, t)); [|reflexivity].
    cbn [map snd]. by rewrite <- app_assoc.
Qed.

(** C10: [create_mipmaps_for_seq] tests the frame number of a source for its
    truth value, not for its presence. In a list whose other sources resolve,
    a source whose frame number is [None] or [0] is converted to the literal
    target path, whatever the substitution of its frame into the target
    would give, a result of [None] included: the conversion to
    [target_seq_path] is in the events at the place of the source, the
    literal target path is in the returned list when that conversion
    succeeded, and the run returns; it raises no error for this source. *)
Theorem create_mipmaps_for_seq_falsy_frame
    (self : Host) (target_seq_path : string)
    (before after : list pystr) (targets_before targets_after : list string)
    (source_path : pystr) (tr : list event) :
  Forall2 (resolves self target_seq_path) before targets_before ->
  Forall2 (resolves self target_seq_path) after targets_after ->
  truthy_int (get_frame_number self source_path) = false ->
  create_mipmaps_for_seq self (before ++ source_path :: after)
                         target_seq_path tr =
  (tr ++
   flat_map (conversion_events self) (combine before targets_before) ++
   MakeTexture (py_str source_path) target_seq_path "lanczos3" ::
   (if make_texture self (py_str source_path) target_seq_path "lanczos3"
    then []
    else [Log LWarning ("Mipmap not created for: " +:+ target_seq_path)]) ++
   flat_map (conversion_events self) (combine after targets_after),
   Return
     (map snd (List.filter (converts self) (combine before targets_before)) ++
      (if make_texture self (py_str source_path) target_seq_path "lanczos3"
       then [target_seq_path] else []) ++
      map snd (List.filter (converts self) (combine after targets_after)))).
Proof.
  intros Hbefore Hafter Hframe. unfold create_mipmaps_for_seq.
  rewrite (create_mipmaps_loop_resolved_prefix _ _ _ _ _ Hbefore).
  rewrite create_mipmaps_loop_step. cbn zeta. rewrite Hframe.
  rewrite (create_mipmaps_loop_resolved _ _ _ _ Hafter).
  change (conversion_events self (source_path, target_seq_path))
    with (MakeTexture (py_str source_path) target_seq_path "lanczos3" ::
          (if make_texture self (py_str source_path) target_seq_path "lanczos3"
           then []
           else [Log LWarning ("Mipmap not created for: " +:+ target_seq_path)])).
  change (converts self (source_path, target_seq_path))
    with (make_texture self (py_str source_path) target_seq_path "lanczos3").
  destruct (make_texture self (py_str source_path) target_seq_path "lanczos3");
    repeat rewrite <- app_assoc; cbn [app]; reflexivity.
Qed.

Lemma create_mipmaps_for_seq_falsy_frame_witness :
  get_frame_number (example_host []) (Some "a.0000.exr"%string) = Some 0%Z /\
  get_path_for_frame (example_host []) "out.tif" (Some 0%Z) = None /\
  create_mipmaps_for_seq (example_host [])
    ([Some "diffuse.exr"%string] ++ Some "a.0000.exr"%string ::
       [Some "specular.exr"%string])
    "out.tif" []
  = ([] ++
     [MakeTexture "diffuse.exr" "out.tif" "lanczos3"] ++
     MakeTexture "a.0000.exr" "out.tif" "lanczos3" ::
     [] ++
     [MakeTexture "specular.exr" "out.tif" "lanczos3"],
     Return (["out.tif"%string] ++ ["out.tif"%string] ++ ["out.tif"%string])).
Proof.
  split; [reflexivity|]. split; [reflexivity|].
  apply (create_mipmaps_for_seq_falsy_frame (example_host []) "out.tif"
           [Some "diffuse.exr"%string] [Some "specular.exr"%string]
           ["out.tif"%string] ["out.tif"%string]
           (Some "a.0000.exr"%string) []).
  - constructor; [right; split; reflexivity | constructor].
  - constructor; [right; split; reflexivity | constructor].
  - reflexivity.
Defined.

End ConversionProps.

(** ** Properties of the mipmap hook: the publish phase *)

Module PublishProps.
Import Mipmaps HookSpec Examples.

Lemma is_substring_unfold (needle haystack : string) :
  is_substring needle haystack =
  String.prefix needle haystack ||
  match haystack with
  | EmptyString => false
  | String _ rest => is_substring needle rest
  end.
Proof. by destruct haystack. Qed.

Lemma prefix_append (s rest : string) : String.prefix s (s +:+ rest) = true.
Proof.
  induction s as [|a s IH]; simpl.
  - by destruct rest.
  - by destruct (ascii_dec a a).
Qed.

Lemma prefix_refl (s : string) : String.prefix s s = true.
Proof.
  induction s as [|a s IH]; simpl; [reflexivity|].
  by destruct (ascii_dec a a).
Qed.

Lemma is_substring_refl (s : string) : is_substring s s = true.
Proof. by rewrite is_substring_unfold, prefix_refl. Qed.

Lemma is_substring_prefix (s rest : string) :
  is_substring s (s +:+ rest) = true.
Proof. by rewrite is_substring_unfold, prefix_append. Qed.

(** A substring of a string is a substring of any extension to the left. *)
Lemma is_substring_append_r (needle before s : string) :
  is_substring needle s = true ->
  is_substring needle (before +:+ s) = true.
Proof.
  intros Hs. induction before as [|a before IH]; [exact Hs|].
  change (String a before +:+ s)%string with (String a (before +:+ s)).
  rewrite is_substring_unfold, IH. apply orb_true_r.
Qed.

(** What [publish_files] does when its [try] block raises: the traceback is
    logged as an error and a [TankError] with the failure message replaces
    the exception. *)
Lemma publish_files_raises
    (self : Host) (task_settings : Settings) (item : Item)
    (publish_path : string) (tr tr' : list event) (e : exn) :
  publish_files_try self task_settings item (normalize self publish_path) tr
    = (tr', Raise e) ->
  publish_files self task_settings item publish_path tr =
  (tr' ++ [Log LError (format_exc self e)],
   Raise (TankError (publish_failure_message item e))).
Proof.
  intros Htry. unfold publish_files.
  cbv beta iota zeta delta [bind try_except]. rewrite Htry.
  reflexivity.
Qed.

(** What [publish_files] does when its [try] block returns. *)
Lemma publish_files_returns
    (self : Host) (task_settings : Settings) (item : Item)
    (publish_path : string) (tr tr' : list event) (mipmap_paths : list string) :
  publish_files_try self task_settings item (normalize self publish_path) tr
    = (tr', Return mipmap_paths) ->
  publish_files self task_settings item publish_path tr =
  (tr' ++ [Log LDebug ("Published file for item '" +:+ name item +:+ "' to '" +:+
                       normalize self publish_path +:+ "'.")],
   Return mipmap_paths).
Proof.
  intros Htry. unfold publish_files.
  cbv beta iota zeta delta [bind try_except]. rewrite Htry.
  reflexivity.
Qed.

(** C7, as stated, fails: with no upstream plugin configured the publish of
    the item [diffuse] to [/proj/publish/diffuse.tx] raises a [TankError]
    whose message names the item but not the target path. *)
Lemma publish_files_message_without_target_path :
  exists msg,
    (publish_files (example_host [shotgun_entry]) ∅ channel_item
                   "/proj/publish/diffuse.tx" []).2 = Raise (TankError msg) /\
    is_substring (name channel_item) msg = true /\
    is_substring (normalize (example_host [shotgun_entry])
                            "/proj/publish/diffuse.tx") msg = false.
Proof.
  eexists. split; [vm_compute; reflexivity|].
  split; vm_compute; reflexivity.
Qed.

(** C7, amended: any exception raised in the [try] block of [publish_files]
    is caught, its traceback is logged as an error, and a single [TankError]
    is raised in its place, whose message includes the item's name and the
    text of the exception that was caught. *)
Theorem publish_files_wraps_exception
    (self : Host) (task_settings : Settings) (item : Item)
    (publish_path : string) (tr tr' : list event) (e : exn) :
  publish_files_try self task_settings item (normalize self publish_path) tr
    = (tr', Raise e) ->
  exists msg,
    publish_files self task_settings item publish_path tr =
      (tr' ++ [Log LError (format_exc self e)], Raise (TankError msg)) /\
    msg = ("Failed to publish file for item '" +:+ name item +:+ "': " +:+
           exn_str e)%string /\
    is_substring (name item) msg = true /\
    is_substring (exn_str e) msg = true.
Proof.
  intros Htry. exists (publish_failure_message item e).
  split; [by apply publish_files_raises with (tr' := tr')|].
  split; [reflexivity|]. unfold publish_failure_message. split.
  - apply is_substring_append_r, is_substring_prefix.
  - do 3 apply is_substring_append_r. apply is_substring_refl.
Qed.

Lemma publish_files_wraps_exception_witness :
  exists msg,
    publish_files (example_host [shotgun_entry]) ∅ channel_item
                  "/proj/publish/diffuse.tx" [] =
      ([Log LError
          (format_exc (example_host [shotgun_entry])
             (TankError
                "Publish Mipmaps needs the output of Publish Textures to run"))],
       Raise (TankError msg)) /\
    msg = ("Failed to publish file for item '" +:+ name channel_item +:+ "': " +:+
           "Publish Mipmaps needs the output of Publish Textures to run")%string /\
    is_substring (name channel_item) msg = true /\
    is_substring "Publish Mipmaps needs the output of Publish Textures to run"
                 msg = true.
Proof.
  apply (publish_files_wraps_exception (example_host [shotgun_entry]) ∅
           channel_item "/proj/publish/diffuse.tx" [] []
           (TankError
              "Publish Mipmaps needs the output of Publish Textures to run")).
  reflexivity.
Defined.

(** A publish that goes well: the texture published upstream is converted to
    the target and the publish is logged. *)
Example publish_files_success :
  publish_files (example_host [textures_entry]) ∅
    (set_local_property "{config}/publish_textures.py" "publish_path"
                        "a.1001.exr" channel_item)
    "out.####.tif" [] =
  ([ MakeTexture "a.1001.exr" "out.1001.tif" "lanczos3";
     Log LDebug "Published file for item 'diffuse' to 'out.####.tif'." ],
   Return ["out.1001.tif"%string]).
Proof. vm_compute. reflexivity. Qed.

End PublishProps.

(** ** More on the task node *)

Module TaskNodeProps.
Import PublishTree TaskNodeWidget Examples.

(** X1: a task that is enabled, or disabled but active, takes exactly the
    state that was requested when [set_check_state] is called on its node
    alone. *)
Theorem set_check_state_applies_requested
    (base : nat -> CheckState -> TreeWidget -> TreeWidget)
    (tree : TreeWidget) (self : nat) (node : TreeNodeTask) (state : CheckState) :
  applies_to_self base ->
  tree !! self = Some (NodeTask node) ->
  enabled (_task node) || active (_task node) = true ->
  exists tree',
    set_check_state base self state false tree = Some tree' /\
    check_state_at tree' self = Some state.
Proof.
  intros Hbase Hself Hflags. exists (base self state tree).
  unfold set_check_state. rewrite Hself.
  destruct (enabled (_task node)), (active (_task node)); try discriminate;
    (split; [reflexivity | apply Hbase; rewrite Hself; eauto]).
Qed.

Lemma set_check_state_applies_requested_witness :
  exists tree',
    set_check_state assign_check_state 0 PartiallyChecked false locked_tree
      = Some tree' /\
    check_state_at tree' 0 = Some PartiallyChecked.
Proof.
  apply (set_check_state_applies_requested assign_check_state locked_tree 0
           {| _task := task_of textures_plugin false true;
              check_state := Unchecked |} PartiallyChecked).
  - intros self state tree [n Hn].
    unfold check_state_at, assign_check_state.
    rewrite lookup_alter_eq, Hn. by destruct n.
  - reflexivity.
  - reflexivity.
Defined.

(** X2: unchecking is never refused: whatever the flags of the task and the
    state of the node, [set_check_state(Unchecked)] on the node alone leaves
    it unchecked. *)
Theorem set_check_state_uncheck_always
    (base : nat -> CheckState -> TreeWidget -> TreeWidget)
    (tree : TreeWidget) (self : nat) (node : TreeNodeTask) :
  applies_to_self base ->
  tree !! self = Some (NodeTask node) ->
  exists tree',
    set_check_state base self Unchecked false tree = Some tree' /\
    check_state_at tree' self = Some Unchecked /\
    checked_at tree' self = Some false.
Proof.
  intros Hbase Hself. exists (base self Unchecked tree).
  assert (Hcs : check_state_at (base self Unchecked tree) self = Some Unchecked)
    by (apply Hbase; rewrite Hself; eauto).
  split; [|split; [exact Hcs|]].
  - unfold set_check_state. rewrite Hself.
    by destruct (negb (enabled (_task node)) && negb (active (_task node))).
  - unfold check_state_at in Hcs. unfold checked_at, checked.
    destruct (base self Unchecked tree !! self) as [n|]; [|discriminate].
    simpl in *. by injection Hcs as ->.
Qed.

Lemma set_check_state_uncheck_always_witness :
  exists tree',
    set_check_state assign_check_state 5 Unchecked false two_item_tree
      = Some tree' /\
    check_state_at tree' 5 = Some Unchecked /\
    checked_at tree' 5 = Some false.
Proof.
  apply (set_check_state_uncheck_always assign_check_state two_item_tree 5
           {| _task := task_of mipmaps_plugin true true;
              check_state := Checked |}).
  - intros self state tree [n Hn].
    unfold check_state_at, assign_check_state.
    rewrite lookup_alter_eq, Hn. by destruct n.
  - reflexivity.
Defined.

(** X3: the check box of a node whose task is disabled cannot be enabled:
    after any series of [set_check_enabled] calls, whatever they ask for, the
    check box is disabled, and the flags and the visibility of the row are
    what they were. *)
Theorem set_check_enabled_disabled_task
    (self : TreeNodeTask) (state : bool) (states : list bool) (w : NodeWidget) :
  enabled (_task self) = false ->
  checkbox_enabled (set_check_enabled_all self (state :: states) w) = false /\
  flags (set_check_enabled_all self (state :: states) w) = flags w /\
  hidden (set_check_enabled_all self (state :: states) w) = hidden w.
Proof.
  intros Hdis. unfold set_check_enabled_all.
  revert state w. induction states as [|s states IH]; intros state w.
  - simpl. rewrite Hdis. by rewrite andb_false_r.
  - change (foldl (fun w0 st => set_check_enabled self st w0) w
              (state :: s :: states))
      with (foldl (fun w0 st => set_check_enabled self st w0)
              (set_check_enabled self state w) (s :: states)).
    destruct (IH s (set_check_enabled self state w)) as (H1 & H2 & H3).
    rewrite H1, H2, H3. by simpl.
Qed.

Lemma set_check_enabled_disabled_task_witness :
  checkbox_enabled (set_check_enabled_all locked_node [true; false; true]
                      shown_widget) = false /\
  flags (set_check_enabled_all locked_node [true; false; true] shown_widget)
    = flags shown_widget /\
  hidden (set_check_enabled_all locked_node [true; false; true] shown_widget)
    = hidden shown_widget.
Proof.
  apply (set_check_enabled_disabled_task locked_node true [false; true]
           shown_widget).
  reflexivity.
Defined.

(** X4: for a task that is enabled the check box is enabled or disabled
    exactly as the last call asks. *)
Theorem set_check_enabled_enabled_task
    (self : TreeNodeTask) (state : bool) (states : list bool) (w : NodeWidget) :
  enabled (_task self) = true ->
  checkbox_enabled (set_check_enabled_all self (states ++ [state]) w) = state.
Proof.
  intros Hen. unfold set_check_enabled_all.
  rewrite foldl_app. simpl. rewrite Hen. apply andb_true_r.
Qed.

Lemma set_check_enabled_enabled_task_witness :
  checkbox_enabled
    (set_check_enabled_all
       {| _task := task_of textures_plugin true false; check_state := Unchecked |}
       ([true; true] ++ [false]) shown_widget)
  = false.
Proof.
  apply (set_check_enabled_enabled_task
           {| _task := task_of textures_plugin true false;
              check_state := Unchecked |} false [true; true] shown_widget).
  reflexivity.
Defined.

(** X5: what the constructor leaves, from the state its base class set up:
    the node is checked unless its task is both disabled and inactive, in
    which case it is unchecked; its check box is enabled exactly when the
    task is; the row is hidden exactly when the task is not visible; the
    selectable flag is set and every other flag is kept. *)
Theorem init_after_super_defaults
    (base : nat -> CheckState -> TreeWidget -> TreeWidget)
    (tree : TreeWidget) (self : nat) (node : TreeNodeTask) (w : NodeWidget) :
  applies_to_self base ->
  tree !! self = Some (NodeTask node) ->
  exists tree' w',
    init_after_super base self w tree = Some (tree', w') /\
    check_state_at tree' self =
      Some (if enabled (_task node) || active (_task node)
            then Checked else Unchecked) /\
    checkbox_enabled w' = enabled (_task node) /\
    hidden w' = negb (visible (_task node)) /\
    Z.testbit (flags w') 0 = true /\
    forall i : Z, i <> 0%Z -> Z.testbit (flags w') i = Z.testbit (flags w) i.
Proof.
  intros Hbase Hself. unfold init_after_super. rewrite Hself.
  unfold set_check_state. rewrite Hself.
  eexists _, _. split; [reflexivity|].
  split; [|split; [|split; [|split]]].
  - destruct (enabled (_task node)), (active (_task node)); simpl;
      apply Hbase; rewrite Hself; eauto.
  - simpl. apply andb_diag.
  - reflexivity.
  - cbn [flags set_check_enabled]. rewrite Z.lor_spec.
    change (Z.testbit ItemIsSelectable 0) with true. apply orb_true_r.
  - intros i Hi. cbn [flags set_check_enabled]. rewrite Z.lor_spec.
    replace (Z.testbit ItemIsSelectable i) with false; [apply orb_false_r|].
    unfold ItemIsSelectable. symmetry.
    destruct i as [|p|p]; [contradiction| |reflexivity]. by destruct p.
Qed.

Lemma init_after_super_defaults_witness :
  exists tree' w',
    init_after_super assign_check_state 0 shown_widget greyed_tree
      = Some (tree', w') /\
    check_state_at tree' 0 = Some Unchecked /\
    checkbox_enabled w' = false /\
    hidden w' = false /\
    Z.testbit (flags w') 0 = true /\
    forall i : Z, i <> 0%Z -> Z.testbit (flags w') i = Z.testbit 32 i.
Proof.
  apply (init_after_super_defaults assign_check_state greyed_tree 0
           {| _task := task_of textures_plugin false false;
              check_state := PartiallyChecked |} shown_widget).
  - intros self state tree [n Hn].
    unfold check_state_at, assign_check_state.
    rewrite lookup_alter_eq, Hn. by destruct n.
  - reflexivity.
Defined.

End TaskNodeProps.

(** ** More on dependency resolution *)

Module DependencyMore.
Import Mipmaps HookSpec Examples.

(** X6: the loop stops at the first entry named like the upstream plugin: the
    key is the hook value of that entry, whatever follows it, entries of the
    same name included. *)
Theorem find_input_key_first_match
    (before after : list PluginItem) (entry : PluginItem) :
  (forall p, p ∈ before -> plugin_name p <> INPUT_PLUGIN_NAME) ->
  plugin_name entry = INPUT_PLUGIN_NAME ->
  find_input_key (before ++ entry :: after) = Some (hook entry).
Proof.
  intros Hbefore Hentry. induction before as [|p before IH]; simpl.
  - by rewrite Hentry.
  - destruct (String.eqb_spec (plugin_name p) INPUT_PLUGIN_NAME) as [Heq|_].
    + exfalso. apply (Hbefore p); [left|exact Heq].
    + apply IH. intros q Hq. apply Hbefore. by right.
Qed.

Lemma find_input_key_first_match_witness :
  find_input_key
    ([shotgun_entry] ++ textures_entry ::
       [{| plugin_name := "Publish Textures"; hook := "{config}/other.py" |}])
  = Some (hook textures_entry).
Proof.
  apply (find_input_key_first_match [shotgun_entry]
           [{| plugin_name := "Publish Textures"; hook := "{config}/other.py" |}]
           textures_entry).
  - intros p Hp. apply list_elem_of_singleton in Hp as ->. discriminate.
  - reflexivity.
Defined.

(** X7: when the upstream plugin is configured but the item holds no local
    properties under its key, [_get_dependency_paths] raises an
    [AttributeError], not a [TankError], and logs nothing. *)
Theorem get_dependency_paths_no_local_scope
    (self : Host) (task_settings : Settings) (item : Item)
    (key : string) (tr : list event) :
  find_input_key (publish_plugins self) = Some key ->
  key <> ""%string ->
  _local_properties item !! key = None ->
  _get_dependency_paths self task_settings item tr =
  (tr, Raise (AttributeError "'NoneType' object has no attribute 'get'")).
Proof.
  intros Hfind Hne Hnone. unfold _get_dependency_paths.
  rewrite Hfind. simpl. destruct (String.eqb_spec key ""); [contradiction|].
  simpl. by rewrite Hnone.
Qed.

Lemma get_dependency_paths_no_local_scope_witness :
  _get_dependency_paths (example_host [textures_entry]) ∅ channel_item [] =
  ([], Raise (AttributeError "'NoneType' object has no attribute 'get'")).
Proof.
  apply (get_dependency_paths_no_local_scope (example_host [textures_entry]) ∅
           channel_item "{config}/publish_textures.py" []).
  - reflexivity.
  - discriminate.
  - reflexivity.
Defined.

(** X8: when the item holds local properties under the key of the upstream
    plugin but no [publish_path] among them, [_get_dependency_paths] returns
    the one-element list [[None]] and raises nothing. *)
Theorem get_dependency_paths_no_publish_path
    (self : Host) (task_settings : Settings) (item : Item)
    (key : string) (props : gmap string string) (tr : list event) :
  find_input_key (publish_plugins self) = Some key ->
  key <> ""%string ->
  _local_properties item !! key = Some props ->
  props !! "publish_path"%string = None ->
  _get_dependency_paths self task_settings item tr = (tr, Return [None]).
Proof.
  intros Hfind Hne Hprops Hnone. unfold _get_dependency_paths.
  rewrite Hfind. simpl. destruct (String.eqb_spec key ""); [contradiction|].
  simpl. rewrite Hprops. unfold ret. by rewrite Hnone.
Qed.

Lemma get_dependency_paths_no_publish_path_witness :
  _get_dependency_paths (example_host [textures_entry]) ∅
    (generic_local_accept "{config}/publish_textures.py" channel_item).1 []
  = ([], Return [None]).
Proof.
  apply (get_dependency_paths_no_publish_path (example_host [textures_entry]) ∅
           (generic_local_accept "{config}/publish_textures.py" channel_item).1
           "{config}/publish_textures.py"
           {[ "plugin_name"%string := "local"%string ]} []).
  - reflexivity.
  - discriminate.
  - reflexivity.
  - reflexivity.
Defined.

(** X9: an upstream entry whose hook value is the empty string counts as no
    entry at all: [_get_dependency_paths] raises the same [TankError] as for
    a plugin that is not configured, whatever the item holds. *)
Theorem get_dependency_paths_empty_hook
    (self : Host) (task_settings : Settings) (item : Item) (tr : list event) :
  find_input_key (publish_plugins self) = Some ""%string ->
  _get_dependency_paths self task_settings item tr =
  (tr, Raise (TankError
                "Publish Mipmaps needs the output of Publish Textures to run")).
Proof.
  intros Hfind. unfold _get_dependency_paths. by rewrite Hfind.
Qed.

Lemma get_dependency_paths_empty_hook_witness :
  _get_dependency_paths
    (example_host [{| plugin_name := "Publish Textures"; hook := "" |}]) ∅
    (set_local_property "" "publish_path" "/proj/tex/diffuse.exr" channel_item) []
  = ([], Raise (TankError
                  "Publish Mipmaps needs the output of Publish Textures to run")).
Proof.
  apply (get_dependency_paths_empty_hook
           (example_host [{| plugin_name := "Publish Textures"; hook := "" |}])).
  reflexivity.
Defined.

(** X10: a [publish_path] written by another plugin instance is not seen:
    when the item holds nothing under the key of the upstream plugin, a
    write under a different key leaves the resolution failing as before. *)
Theorem get_dependency_paths_foreign_write
    (self : Host) (task_settings : Settings) (item : Item)
    (key key' path : string) (tr : list event) :
  find_input_key (publish_plugins self) = Some key ->
  key <> ""%string ->
  key' <> key ->
  _local_properties item !! key = None ->
  _get_dependency_paths self task_settings
    (set_local_property key' "publish_path" path item) tr =
  (tr, Raise (AttributeError "'NoneType' object has no attribute 'get'")).
Proof.
  intros Hfind Hne Hne' Hnone. unfold _get_dependency_paths.
  rewrite Hfind. simpl. destruct (String.eqb_spec key ""); [contradiction|].
  simpl. rewrite lookup_insert_ne by exact Hne'. by rewrite Hnone.
Qed.

Lemma get_dependency_paths_foreign_write_witness :
  _get_dependency_paths (example_host [textures_entry]) ∅
    (set_local_property "{self}/publish_file.py" "publish_path"
                        "/proj/tex/diffuse.exr" channel_item) []
  = ([], Raise (AttributeError "'NoneType' object has no attribute 'get'")).
Proof.
  apply (get_dependency_paths_foreign_write (example_host [textures_entry]) ∅
           channel_item "{config}/publish_textures.py" "{self}/publish_file.py"
           "/proj/tex/diffuse.exr" []).
  - reflexivity.
  - discriminate.
  - discriminate.
  - reflexivity.
Defined.

End DependencyMore.

(** ** More on the conversion of a list of sources *)

Module ConversionMore.
Import Mipmaps HookSpec Examples.

(** The list built so far is only ever extended: a run from any list is the
    run from the empty list with its result appended. *)
Lemma create_mipmaps_loop_acc
    (self : Host) (target_seq_path : string) (source_paths : list pystr) :
  forall (mipmap_paths : list string) (tr : list event),
    create_mipmaps_loop self source_paths target_seq_path mipmap_paths tr =
    match create_mipmaps_loop self source_paths target_seq_path [] tr with
    | (tr', Return paths) => (tr', Return (mipmap_paths ++ paths))
    | (tr', Raise e) => (tr', Raise e)
    end.
Proof.
  induction source_paths as [|s ss IH]; intros acc tr.
  - simpl. unfold ret. by rewrite app_nil_r.
  - rewrite !ConversionProps.create_mipmaps_loop_step. cbn zeta.
    destruct (truthy_int (get_frame_number self s)).
    + destruct (truthy_str (get_path_for_frame self target_seq_path
                              (get_frame_number self s))); [|reflexivity].
      rewrite IH. symmetry. rewrite IH. symmetry.
      destruct (create_mipmaps_loop self ss target_seq_path [] _) as [tr' [e|ps]];
        [reflexivity|].
      destruct (converts self _); [|reflexivity].
      by rewrite <- app_assoc.
    + rewrite IH. symmetry. rewrite IH. symmetry.
      destruct (create_mipmaps_loop self ss target_seq_path [] _) as [tr' [e|ps]];
        [reflexivity|].
      destruct (converts self _); [|reflexivity].
      by rewrite <- app_assoc.
Qed.

(** A run over two lists in a row is the run over the first followed, if it
    returns, by the run over the second. *)
Lemma create_mipmaps_loop_app
    (self : Host) (target_seq_path : string) (first second : list pystr) :
  forall (mipmap_paths : list string) (tr : list event),
    create_mipmaps_loop self (first ++ second) target_seq_path mipmap_paths tr =
    match create_mipmaps_loop self first target_seq_path mipmap_paths tr with
    | (tr', Return paths) =>
        create_mipmaps_loop self second target_seq_path paths tr'
    | (tr', Raise e) => (tr', Raise e)
    end.
Proof.
  induction first as [|s ss IH]; intros acc tr; [reflexivity|].
  change ((s :: ss) ++ second) with (s :: (ss ++ second)).
  rewrite !ConversionProps.create_mipmaps_loop_step. cbn zeta.
  destruct (truthy_int (get_frame_number self s)).
  - destruct (truthy_str (get_path_for_frame self target_seq_path
                            (get_frame_number self s))); [|reflexivity].
    apply IH.
  - apply IH.
Qed.

(** X11: converting a list of sources in two batches gives what converting
    it in one does: if the first batch returns its paths and the second,
    run after it, returns its own, the whole list returns the first paths
    followed by the second, with the same events. *)
Theorem create_mipmaps_for_seq_batches
    (self : Host) (target_seq_path : string) (first second : list pystr)
    (tr tr1 tr2 : list event) (paths1 paths2 : list string) :
  create_mipmaps_for_seq self first target_seq_path tr = (tr1, Return paths1) ->
  create_mipmaps_for_seq self second target_seq_path tr1 = (tr2, Return paths2) ->
  create_mipmaps_for_seq self (first ++ second) target_seq_path tr
  = (tr2, Return (paths1 ++ paths2)).
Proof.
  unfold create_mipmaps_for_seq. intros H1 H2.
  rewrite create_mipmaps_loop_app, H1, create_mipmaps_loop_acc, H2. reflexivity.
Qed.

Lemma create_mipmaps_for_seq_batches_witness :
  create_mipmaps_for_seq (example_host [])
    ([Some "a.1001.exr"%string; Some "broken.1003.exr"%string] ++
       [Some "a.1002.exr"%string])
    "out.####.tif" []
  = ([ MakeTexture "a.1001.exr" "out.1001.tif" "lanczos3";
       MakeTexture "broken.1003.exr" "out.1003.tif" "lanczos3";
       Log LWarning "Mipmap not created for: out.1003.tif";
       MakeTexture "a.1002.exr" "out.1002.tif" "lanczos3" ],
     Return (["out.1001.tif"%string] ++ ["out.1002.tif"%string])).
Proof.
  apply (create_mipmaps_for_seq_batches (example_host []) "out.####.tif"
           [Some "a.1001.exr"; Some "broken.1003.exr"]%string
           [Some "a.1002.exr"]%string []
           [ MakeTexture "a.1001.exr" "out.1001.tif" "lanczos3";
             MakeTexture "broken.1003.exr" "out.1003.tif" "lanczos3";
             Log LWarning "Mipmap not created for: out.1003.tif" ]).
  - reflexivity.
  - reflexivity.
Defined.

(** X12: a configuration error stops the run where it is met and undoes
    nothing. When the sources before a mismatching one all resolve, they
    are converted, failures logged, as if the list ended there; then the
    [TankError] is raised with the source and the empty result in its
    message, no path is returned, and no later source is converted. *)
Theorem create_mipmaps_for_seq_stops_at_mismatch
    (self : Host) (target_seq_path : string)
    (before after : list pystr) (targets : list string)
    (source_path : pystr) (tr : list event) :
  Forall2 (resolves self target_seq_path) before targets ->
  truthy_int (get_frame_number self source_path) = true ->
  truthy_str (get_path_for_frame self target_seq_path
                (get_frame_number self source_path)) = false ->
  create_mipmaps_for_seq self (before ++ source_path :: after)
                         target_seq_path tr =
  (tr ++ flat_map (conversion_events self) (combine before targets),
   Raise (TankError
            ("Source path: " +:+ py_str source_path +:+
             " contains a frame number, but target path: " +:+
             py_str (get_path_for_frame self target_seq_path
                       (get_frame_number self source_path)) +:+
             " does not."))).
Proof.
  intros Hres Hframe Hsub. unfold create_mipmaps_for_seq.
  rewrite create_mipmaps_loop_app.
  rewrite (ConversionProps.create_mipmaps_loop_resolved _ _ _ _ Hres).
  rewrite ConversionProps.create_mipmaps_loop_step. cbn zeta.
  by rewrite Hframe, Hsub.
Qed.

Lemma create_mipmaps_for_seq_stops_at_mismatch_witness :
  create_mipmaps_for_seq (example_host [])
    ([None] ++ Some "broken.1003.exr"%string ::
       [Some "a.1001.exr"%string; Some "a.1002.exr"%string])
    "out.tif" []
  = ([ MakeTexture "None" "out.tif" "lanczos3" ] ++ [],
     Raise (TankError
              "Source path: broken.1003.exr contains a frame number, but target path: None does not.")).
Proof.
  apply (create_mipmaps_for_seq_stops_at_mismatch (example_host []) "out.tif"
           [None] [Some "a.1001.exr"; Some "a.1002.exr"]%string
           ["out.tif"%string] (Some "broken.1003.exr"%string) []).
  - constructor; [right; split; reflexivity | constructor].
  - reflexivity.
  - reflexivity.
Defined.

(** X13: sources without a frame number all go to the same literal target
    path: when no source of the list has a frame number that counts as true,
    every successful conversion writes to [target_seq_path], and the
    returned list is that one path, once for each conversion that
    succeeded. *)
Theorem create_mipmaps_for_seq_no_frames
    (self : Host) (target_seq_path : string) (source_paths : list pystr)
    (tr : list event) :
  Forall (fun s => truthy_int (get_frame_number self s) = false) source_paths ->
  create_mipmaps_for_seq self source_paths target_seq_path tr =
  (tr ++ flat_map (fun s => conversion_events self (s, target_seq_path))
                  source_paths,
   Return (map (fun _ => target_seq_path)
               (List.filter (fun s => converts self (s, target_seq_path))
                            source_paths))).
Proof.
  intros Hall.
  assert (Hres : Forall2 (resolves self target_seq_path) source_paths
                   (map (fun _ => target_seq_path) source_paths)).
  { induction Hall as [|s ss Hs _ IH]; simpl; constructor; [|exact IH].
    right. by split. }
  unfold create_mipmaps_for_seq.
  rewrite (ConversionProps.create_mipmaps_loop_resolved _ _ _ _ Hres []).
  clear Hall Hres. rewrite app_nil_l. f_equal.
  - f_equal. induction source_paths as [|s ss IH]; [reflexivity|].
    cbn [map combine flat_map]. by rewrite IH.
  - f_equal. induction source_paths as [|s ss IH]; [reflexivity|].
    cbn [map combine List.filter].
    destruct (converts self (s, target_seq_path)); cbn [map snd]; by rewrite IH.
Qed.

Lemma create_mipmaps_for_seq_no_frames_witness :
  create_mipmaps_for_seq (example_host [])
    [Some "diffuse.exr"; Some "a.0000.exr"; Some "specular.exr"]%string
    "out.tif" []
  = ([] ++ [ MakeTexture "diffuse.exr" "out.tif" "lanczos3";
             MakeTexture "a.0000.exr" "out.tif" "lanczos3";
             MakeTexture "specular.exr" "out.tif" "lanczos3" ],
     Return ["out.tif"; "out.tif"; "out.tif"]%string).
Proof.
  apply (create_mipmaps_for_seq_no_frames (example_host []) "out.tif"
           [Some "diffuse.exr"; Some "a.0000.exr"; Some "specular.exr"]%string []).
  repeat constructor.
Defined.

(** X14: [create_mipmaps_for_seq] raises nothing but the [TankError] of a
    source whose frame cannot be substituted into the target: any exception
    it ends with is a [TankError], and some source of the list has a frame
    number that counts as true and a substitution that yields nothing. *)
Theorem create_mipmaps_for_seq_raises_only_mismatch
    (self : Host) (target_seq_path : string) (source_paths : list pystr)
    (tr tr' : list event) (e : exn) :
  create_mipmaps_for_seq self source_paths target_seq_path tr = (tr', Raise e) ->
  exists source_path,
    source_path ∈ source_paths /\
    truthy_int (get_frame_number self source_path) = true /\
    truthy_str (get_path_for_frame self target_seq_path
                  (get_frame_number self source_path)) = false /\
    e = TankError
          ("Source path: " +:+ py_str source_path +:+
           " contains a frame number, but target path: " +:+
           py_str (get_path_for_frame self target_seq_path
                     (get_frame_number self source_path)) +:+
           " does not.").
Proof.
  unfold create_mipmaps_for_seq. generalize (@nil string) as acc. revert tr.
  induction source_paths as [|s ss IH]; intros tr acc Hrun.
  - discriminate.
  - rewrite ConversionProps.create_mipmaps_loop_step in Hrun. cbn zeta in Hrun.
    destruct (truthy_int (get_frame_number self s)) eqn:Hframe.
    + destruct (truthy_str (get_path_for_frame self target_seq_path
                              (get_frame_number self s))) eqn:Hsub.
      * destruct (IH _ _ Hrun) as (x & Hx & H). exists x. split; [by right|exact H].
      * injection Hrun as _ <-. exists s. split; [left|]. by repeat split.
    + destruct (IH _ _ Hrun) as (x & Hx & H). exists x. split; [by right|exact H].
Qed.

Lemma create_mipmaps_for_seq_raises_only_mismatch_witness :
  exists source_path,
    source_path ∈ [Some "diffuse.exr"; Some "a.1001.exr"]%string /\
    truthy_int (get_frame_number (example_host []) source_path) = true /\
    truthy_str (get_path_for_frame (example_host []) "out.tif"
                  (get_frame_number (example_host []) source_path)) = false /\
    TankError "Source path: a.1001.exr contains a frame number, but target path: None does not." =
    TankError
          ("Source path: " +:+ py_str source_path +:+
           " contains a frame number, but target path: " +:+
           py_str (get_path_for_frame (example_host []) "out.tif"
                     (get_frame_number (example_host []) source_path)) +:+
           " does not.").
Proof.
  apply (create_mipmaps_for_seq_raises_only_mismatch (example_host []) "out.tif"
           [Some "diffuse.exr"; Some "a.1001.exr"]%string []
           [MakeTexture "diffuse.exr" "out.tif" "lanczos3"]).
  reflexivity.
Defined.

End ConversionMore.

(** ** More on the publish phase *)

Module PublishMore.
Import Mipmaps HookSpec Examples MoreExamples.

(** X15: when the publish folder cannot be made, [publish_files] logs the
    traceback and raises a [TankError] that carries the text of the failure;
    the upstream plugin is not looked up and no texture is made. *)
Theorem publish_files_folder_failure
    (self : Host) (task_settings : Settings) (item : Item)
    (publish_path : string) (tr : list event) (e : exn) :
  ensure_folder_exists self (dirname self (normalize self publish_path))
    = Raise e ->
  publish_files self task_settings item publish_path tr =
  (tr ++ [Log LError (format_exc self e)],
   Raise (TankError ("Failed to publish file for item '" +:+ name item +:+
                     "': " +:+ exn_str e))).
Proof.
  intros Hfolder.
  apply (PublishProps.publish_files_raises self task_settings item publish_path
           tr tr e).
  unfold publish_files_try. cbv beta iota zeta delta [bind]. by rewrite Hfolder.
Qed.

Lemma publish_files_folder_failure_witness :
  publish_files (readonly_host [textures_entry]) ∅ published_item
                "/proj/publish/diffuse.tx" [] =
  ([] ++ [Log LError
            (format_exc (readonly_host [textures_entry])
               (OSError "[Errno 13] Permission denied: '/proj/publish'"))],
   Raise (TankError ("Failed to publish file for item '" +:+ name published_item +:+
                     "': " +:+
                     exn_str (OSError
                                "[Errno 13] Permission denied: '/proj/publish'")))).
Proof.
  apply (publish_files_folder_failure (readonly_host [textures_entry]) ∅
           published_item "/proj/publish/diffuse.tx" []
           (OSError "[Errno 13] Permission denied: '/proj/publish'")).
  reflexivity.
Defined.

(** X16: with the publish folder in place and no upstream plugin configured,
    [publish_files] makes no texture and raises the [TankError] that wraps
    the configuration error of the dependency resolution. *)
Theorem publish_files_unconfigured
    (self : Host) (task_settings : Settings) (item : Item)
    (publish_path : string) (tr : list event) :
  ensure_folder_exists self (dirname self (normalize self publish_path))
    = Return tt ->
  (forall p, p ∈ publish_plugins self -> plugin_name p <> INPUT_PLUGIN_NAME) ->
  publish_files self task_settings item publish_path tr =
  (tr ++ [Log LError
            (format_exc self
               (TankError
                  "Publish Mipmaps needs the output of Publish Textures to run"))],
   Raise (TankError
            ("Failed to publish file for item '" +:+ name item +:+
             "': Publish Mipmaps needs the output of Publish Textures to run"))).
Proof.
  intros Hfolder Hno.
  apply (PublishProps.publish_files_raises self task_settings item publish_path
           tr tr
           (TankError
              "Publish Mipmaps needs the output of Publish Textures to run")).
  unfold publish_files_try, _get_dependency_paths.
  cbv beta iota zeta delta [bind]. rewrite Hfolder.
  by rewrite (DependencyProps.find_input_key_absent _ Hno).
Qed.

Lemma publish_files_unconfigured_witness :
  publish_files (example_host [shotgun_entry]) ∅ published_item
                "/proj/publish/diffuse.tx" [] =
  ([] ++ [Log LError
            (format_exc (example_host [shotgun_entry])
               (TankError
                  "Publish Mipmaps needs the output of Publish Textures to run"))],
   Raise (TankError
            ("Failed to publish file for item '" +:+ name published_item +:+
             "': Publish Mipmaps needs the output of Publish Textures to run"))).
Proof.
  apply (publish_files_unconfigured (example_host [shotgun_entry]) ∅
           published_item "/proj/publish/diffuse.tx" []).
  - reflexivity.
  - intros p Hp. apply list_elem_of_singleton in Hp as ->. discriminate.
Defined.

(** X17: paths that are not file sequences pass through the expansion
    unchanged, in order. *)
Theorem expand_source_paths_no_sequence
    (self : Host) (source_path_list : list pystr) :
  Forall (fun s => truthy_str (get_frame_sequence_path self s) = false)
         source_path_list ->
  expand_source_paths self source_path_list = source_path_list.
Proof.
  induction 1 as [|s ss Hs _ IH]; simpl; [reflexivity|].
  by rewrite Hs, IH.
Qed.

Lemma expand_source_paths_no_sequence_witness :
  expand_source_paths (example_host [])
    [Some "diffuse.exr"%string; None; Some "specular.exr"%string]
  = [Some "diffuse.exr"%string; None; Some "specular.exr"%string].
Proof.
  apply (expand_source_paths_no_sequence (example_host [])
           [Some "diffuse.exr"%string; None; Some "specular.exr"%string]).
  repeat constructor.
Defined.

(** X18: the whole publish of one texture. With the publish folder in place,
    the upstream plugin configured under a key, a [publish_path] recorded
    under that key that is neither a file sequence nor carries a frame
    number, and a conversion that succeeds, [publish_files] converts that
    one file to the normalized publish path, logs the publish, and returns
    the one-element list with the publish path. *)
Theorem publish_files_single_texture
    (self : Host) (task_settings : Settings) (item : Item)
    (publish_path key source : string) (props : gmap string string)
    (tr : list event) :
  ensure_folder_exists self (dirname self (normalize self publish_path))
    = Return tt ->
  find_input_key (publish_plugins self) = Some key ->
  key <> ""%string ->
  _local_properties item !! key = Some props ->
  props !! "publish_path"%string = Some source ->
  truthy_str (get_frame_sequence_path self (Some source)) = false ->
  truthy_int (get_frame_number self (Some source)) = false ->
  make_texture self source (normalize self publish_path) "lanczos3" = true ->
  publish_files self task_settings item publish_path tr =
  (tr ++ [MakeTexture source (normalize self publish_path) "lanczos3";
          Log LDebug ("Published file for item '" +:+ name item +:+ "' to '" +:+
                      normalize self publish_path +:+ "'.")],
   Return [normalize self publish_path]).
Proof.
  intros Hfolder Hfind Hne Hprops Hpath Hseq Hframe Hmake.
  rewrite (PublishProps.publish_files_returns self task_settings item
             publish_path tr
             (tr ++ [MakeTexture source (normalize self publish_path) "lanczos3"])
             [normalize self publish_path]).
  - by rewrite <- app_assoc.
  - unfold publish_files_try, _get_dependency_paths.
    cbv beta iota zeta delta [bind]. rewrite Hfolder, Hfind.
    rewrite (DependencyProps.truthy_str_Some _ Hne). cbn [negb py_str].
    rewrite Hprops. unfold ret at 1. rewrite Hpath.
    cbn [expand_source_paths]. rewrite Hseq. cbn [app].
    unfold create_mipmaps_for_seq.
    rewrite ConversionProps.create_mipmaps_loop_step. cbn zeta.
    rewrite Hframe. unfold converts, conversion_events, converts.
    cbn [fst snd py_str]. rewrite Hmake. reflexivity.
Qed.

Lemma publish_files_single_texture_witness :
  publish_files (example_host [textures_entry]) ∅ published_item
                "/proj/publish/diffuse.tx" [] =
  ([] ++ [MakeTexture "/proj/tex/diffuse.exr"
            (normalize (example_host [textures_entry]) "/proj/publish/diffuse.tx")
            "lanczos3";
          Log LDebug ("Published file for item '" +:+ name published_item +:+
                      "' to '" +:+
                      normalize (example_host [textures_entry])
                                "/proj/publish/diffuse.tx" +:+ "'.")],
   Return [normalize (example_host [textures_entry]) "/proj/publish/diffuse.tx"]).
Proof.
  apply (publish_files_single_texture (example_host [textures_entry]) ∅
           published_item "/proj/publish/diffuse.tx"
           "{config}/publish_textures.py" "/proj/tex/diffuse.exr"
           {[ "publish_path"%string := "/proj/tex/diffuse.exr"%string ]} []).
  - reflexivity.
  - reflexivity.
  - discriminate.
  - reflexivity.
  - reflexivity.
  - reflexivity.
  - reflexivity.
  - reflexivity.
Defined.

(** X19: [publish_files] ends in one of two ways, whatever it is given.
    Either it returns the mipmap paths and its last record is the debug
    line of the publish; or it raises a [TankError], never another
    exception, whose message names the item and the failure, and its last
    record is the traceback, logged as an error. *)
Theorem publish_files_outcomes
    (self : Host) (task_settings : Settings) (item : Item)
    (publish_path : string) (tr : list event) :
  (exists tr' mipmap_paths,
     publish_files self task_settings item publish_path tr =
     (tr' ++ [Log LDebug ("Published file for item '" +:+ name item +:+
                          "' to '" +:+ normalize self publish_path +:+ "'.")],
      Return mipmap_paths)) \/
  (exists tr' e,
     publish_files self task_settings item publish_path tr =
     (tr' ++ [Log LError (format_exc self e)],
      Raise (TankError ("Failed to publish file for item '" +:+ name item +:+
                        "': " +:+ exn_str e)))).
Proof.
  destruct (publish_files_try self task_settings item
              (normalize self publish_path) tr) as [tr' [e|paths]] eqn:Htry.
  - right. exists tr', e. by apply PublishProps.publish_files_raises.
  - left. exists tr', paths. by apply PublishProps.publish_files_returns.
Qed.

End PublishMore.

(** ** The validation of the mipmap hook *)

Module ValidationProps.
Import Mipmaps Validation Examples MoreExamples.

(** X20: when the [validate] of the base class refuses the item, the hook
    refuses it too and adds nothing: OpenImageIO is not asked and no record
    is logged beyond those of the base class. *)
Theorem validate_base_refuses
    (self : Env) (task_settings : Settings) (item : Item)
    (tr tr' : list event) :
  super_validate self task_settings item tr = (tr', Return false) ->
  validate self task_settings item tr = (tr', Return false).
Proof.
  intros Hsuper. unfold validate. cbv beta iota zeta delta [bind].
  by rewrite Hsuper.
Qed.

Lemma validate_base_refuses_witness :
  validate (example_env false "/proj/publish/diffuse.xyz") ∅ channel_item [] =
  ([] ++ [Log LDebug "base validate"], Return false).
Proof.
  apply (validate_base_refuses (example_env false "/proj/publish/diffuse.xyz") ∅
           channel_item [] ([] ++ [Log LDebug "base validate"])).
  reflexivity.
Defined.

(** X21: the verdict of [validate] once the base class accepts the item. The
    item is valid exactly when OpenImageIO has an output for the normalized
    publish path that supports mipmaps or several images. A missing output
    is logged as a warning, and every refusal as an error that names the
    extension of the path; an accepted item logs nothing. *)
Theorem validate_verdict
    (self : Env) (task_settings : Settings) (item : Item)
    (tr tr' : list event) :
  super_validate self task_settings item tr = (tr', Return true) ->
  let publish_path := normalize self (get_property self item "publish_path") in
  let output := image_output_create self publish_path in
  let valid :=
    match output with
    | Some o => supports o "mipmap" || supports o "multiimage"
    | None => false
    end in
  validate self task_settings item tr =
  (tr' ++
   (match output with
    | Some _ => []
    | None => [Log LWarning ("Issues locating OIIO plugin for '" +:+
                             (splitext self publish_path).2 +:+ "'")]
    end) ++
   (if valid then []
    else [Log LError
            ("Failed to find OIIO plugin or mipmap not supported for extension: "
             +:+ (splitext self publish_path).2 +:+ " Validation failed.")]),
   Return valid).
Proof.
  intros Hsuper. cbn zeta. unfold validate, _valid_for_mipmap_multiimage.
  cbv beta iota zeta delta [bind]. rewrite Hsuper. cbn [negb py_str].
  destruct (image_output_create self
              (normalize self (get_property self item "publish_path")))
    as [o|].
  - unfold ret at 1.
    destruct (supports o "mipmap" || supports o "multiimage"); cbn [negb].
    + unfold ret. by rewrite !app_nil_r.
    + cbv beta iota zeta delta [logger emit ret]. reflexivity.
  - cbv beta iota zeta delta [logger emit ret bind]. cbn [negb].
    by rewrite <- app_assoc.
Qed.

Lemma validate_verdict_witness :
  validate (example_env true "/proj/publish/diffuse.xyz") ∅ channel_item [] =
  (([] ++ [Log LDebug "base validate"]) ++
   [Log LWarning "Issues locating OIIO plugin for '.xyz'"] ++
   [Log LError
      "Failed to find OIIO plugin or mipmap not supported for extension: .xyz Validation failed."],
   Return false).
Proof.
  apply (validate_verdict (example_env true "/proj/publish/diffuse.xyz") ∅
           channel_item [] ([] ++ [Log LDebug "base validate"])).
  reflexivity.
Defined.

(** The two other cases of the verdict, on the examples: a format with
    mipmaps is accepted silently, a format without is refused with an error
    and no warning. *)
Example validate_tx_and_png :
  validate (example_env true "/proj/publish/diffuse.tx") ∅ channel_item [] =
    ([Log LDebug "base validate"], Return true) /\
  validate (example_env true "/proj/publish/diffuse.png") ∅ channel_item [] =
    ([Log LDebug "base validate";
      Log LError
        "Failed to find OIIO plugin or mipmap not supported for extension: .png Validation failed."],
     Return false).
Proof. split; vm_compute; reflexivity. Qed.

(** X22: support for several images is enough: a format whose output
    supports [multiimage] passes [_valid_for_mipmap_multiimage] without a
    record, whether or not it supports mipmaps. *)
Theorem valid_for_multiimage_alone
    (self : Env) (target_path : string) (output : ImageOutput)
    (tr : list event) :
  image_output_create self target_path = Some output ->
  supports output "multiimage" = true ->
  _valid_for_mipmap_multiimage self target_path tr = (tr, Return true).
Proof.
  intros Hcreate Hmulti. unfold _valid_for_mipmap_multiimage. cbn [py_str].
  rewrite Hcreate, Hmulti. unfold ret. by rewrite orb_true_r.
Qed.

Lemma valid_for_multiimage_alone_witness :
  _valid_for_mipmap_multiimage
    {| super_validate := fun _ _ tr => (tr, Return true);
       get_property := fun _ _ => "/proj/publish/diffuse.tif"%string;
       normalize := fun p => p;
       splitext := example_splitext;
       image_output_create :=
         fun _ => Some {| supports := fun f => String.eqb f "multiimage" |} |}
    "/proj/publish/diffuse.tif" []
  = ([], Return true).
Proof.
  apply (valid_for_multiimage_alone
           {| super_validate := fun _ _ tr => (tr, Return true);
              get_property := fun _ _ => "/proj/publish/diffuse.tif"%string;
              normalize := fun p => p;
              splitext := example_splitext;
              image_output_create :=
                fun _ => Some {| supports := fun f => String.eqb f "multiimage" |} |}
           "/proj/publish/diffuse.tif"
           {| supports := fun f => String.eqb f "multiimage" |} []).
  - reflexivity.
  - reflexivity.
Defined.

End ValidationProps.

(** ** The publish path and name of the mipmap hook *)

Module PublishPathProps.
Import PublishPath PathExamples.

Lemma set_local_twice (key : string) (v v' : pyvalue) (item : Item) :
  set_local key v' (set_local key v item) = set_local key v' item.
Proof. unfold set_local. simpl. f_equal. apply insert_insert_eq. Qed.

(** X23: without a [publish_extension] setting both methods raise a
    [TankError] that names the item; the item is left as it was and the
    base class is not called. *)
Theorem get_publish_path_no_extension
    (get_property : Item -> string -> pyvalue)
    (super_path super_name : gmap string Setting -> P string)
    (task_settings : gmap string Setting) (item : Item) :
  task_settings !! "publish_extension"%string = None ->
  _get_publish_path get_property super_path task_settings item =
    (item, Raise (TankError ("publish_extension not set for item: " +:+
                             name item))) /\
  _get_publish_name get_property super_name task_settings item =
    (item, Raise (TankError ("publish_extension not set for item: " +:+
                             name item))).
Proof.
  intros Hnone. unfold _get_publish_path, _get_publish_name.
  by rewrite Hnone.
Qed.

Lemma get_publish_path_no_extension_witness :
  _get_publish_path example_get_property example_super_path ∅ fresh_item =
    (fresh_item, Raise (TankError ("publish_extension not set for item: " +:+
                                   name fresh_item))) /\
  _get_publish_name example_get_property example_super_name ∅ fresh_item =
    (fresh_item, Raise (TankError ("publish_extension not set for item: " +:+
                                   name fresh_item))).
Proof.
  apply (get_publish_path_no_extension example_get_property example_super_path
           example_super_name ∅ fresh_item).
  reflexivity.
Defined.

(** X24: the fields are overridden once. When the item already has local
    fields, both methods hand it to the base class as it is, whatever the
    [publish_extension] setting says now. *)
Theorem get_publish_path_already_overridden
    (get_property : Item -> string -> pyvalue)
    (super_path super_name : gmap string Setting -> P string)
    (task_settings : gmap string Setting) (item : Item)
    (extension : Setting) (fields : pyvalue) :
  task_settings !! "publish_extension"%string = Some extension ->
  local_properties item !! "fields"%string = Some fields ->
  _get_publish_path get_property super_path task_settings item =
    super_path task_settings item /\
  _get_publish_name get_property super_name task_settings item =
    super_name task_settings item.
Proof.
  intros Hext Hfields. unfold _get_publish_path, _get_publish_name.
  by rewrite Hext, Hfields.
Qed.

Lemma get_publish_path_already_overridden_witness :
  _get_publish_path example_get_property example_super_path tif_settings
    (set_local "fields" (Dict exr_fields) fresh_item) =
    example_super_path tif_settings
      (set_local "fields" (Dict exr_fields) fresh_item) /\
  _get_publish_name example_get_property example_super_name tif_settings
    (set_local "fields" (Dict exr_fields) fresh_item) =
    example_super_name tif_settings
      (set_local "fields" (Dict exr_fields) fresh_item).
Proof.
  apply (get_publish_path_already_overridden example_get_property
           example_super_path example_super_name tif_settings
           (set_local "fields" (Dict exr_fields) fresh_item)
           {| value := AStr "tif" |} (Dict exr_fields)).
  - reflexivity.
  - reflexivity.
Defined.

(** X25: the first override. When the item has no local fields and its
    fields are a dictionary, the base class gets an item whose local fields
    are that dictionary with [extension] set to the value of the setting;
    the name, the global properties, the global fields among them, and every
    other local property are those of the item. *)
Theorem get_publish_path_first_override
    (get_property : Item -> string -> pyvalue)
    (super_path : gmap string Setting -> P string)
    (task_settings : gmap string Setting) (item : Item)
    (extension : Setting) (d : gmap string atom) :
  task_settings !! "publish_extension"%string = Some extension ->
  local_properties item !! "fields"%string = None ->
  get_property item "fields" = Dict d ->
  exists item',
    _get_publish_path get_property super_path task_settings item =
      super_path task_settings item' /\
    local_properties item' !! "fields"%string =
      Some (Dict (<["extension"%string := value extension]> d)) /\
    name item' = name item /\
    properties item' = properties item /\
    forall key : string,
      key <> "fields"%string ->
      local_properties item' !! key = local_properties item !! key.
Proof.
  intros Hext Hnone Hfields.
  exists (set_local "fields" (Dict (<["extension"%string := value extension]> d))
            item).
  split; [|split; [|split; [|split]]].
  - unfold _get_publish_path. rewrite Hext, Hnone, Hfields.
    by rewrite set_local_twice.
  - simpl. apply lookup_insert_eq.
  - reflexivity.
  - reflexivity.
  - intros key Hkey. simpl. by apply lookup_insert_ne.
Qed.

Lemma get_publish_path_first_override_witness :
  exists item',
    _get_publish_path example_get_property example_super_path tx_settings
                      fresh_item =
      example_super_path tx_settings item' /\
    local_properties item' !! "fields"%string =
      Some (Dict (<["extension"%string := AStr "tx"]> exr_fields)) /\
    name item' = name fresh_item /\
    properties item' = properties fresh_item /\
    forall key : string,
      key <> "fields"%string ->
      local_properties item' !! key = local_properties fresh_item !! key.
Proof.
  apply (get_publish_path_first_override example_get_property
           example_super_path tx_settings fresh_item
           {| value := AStr "tx" |} exr_fields).
  - reflexivity.
  - reflexivity.
  - reflexivity.
Defined.

(** On the example the path gets the extension of the setting and the
    global fields keep theirs. *)
Example get_publish_path_fresh_item :
  (_get_publish_path example_get_property example_super_path tx_settings
                     fresh_item).2 = Return "/proj/publish/diffuse.tx"%string /\
  properties
    (_get_publish_path example_get_property example_super_path tx_settings
                       fresh_item).1 !! "fields"%string
  = Some (Dict exr_fields).
Proof. split; vm_compute; reflexivity. Qed.

(** X26: fields that are no dictionary. When the item has no local fields
    and its fields are [None], a string or a number, [_get_publish_path]
    raises a [TypeError], and it leaves that value as the local fields of
    the item; a second call therefore finds local fields, skips the
    override, and hands the item to the base class. *)
Theorem get_publish_path_fields_not_a_dict
    (get_property : Item -> string -> pyvalue)
    (super_path : gmap string Setting -> P string)
    (task_settings : gmap string Setting) (item : Item)
    (extension : Setting) (a : atom) :
  task_settings !! "publish_extension"%string = Some extension ->
  local_properties item !! "fields"%string = None ->
  get_property item "fields" = Atom a ->
  _get_publish_path get_property super_path task_settings item =
    (set_local "fields" (Atom a) item,
     Raise (TypeError ("'" +:+ type_name (Atom a) +:+
                       "' object does not support item assignment"))) /\
  _get_publish_path get_property super_path task_settings
                    (set_local "fields" (Atom a) item) =
    super_path task_settings (set_local "fields" (Atom a) item).
Proof.
  intros Hext Hnone Hfields. unfold _get_publish_path. rewrite Hext. split.
  - by rewrite Hnone, Hfields.
  - simpl. by rewrite lookup_insert_eq.
Qed.

Lemma get_publish_path_fields_not_a_dict_witness :
  _get_publish_path example_get_property example_super_path tx_settings
                    bare_item =
    (set_local "fields" (Atom ANone) bare_item,
     Raise (TypeError ("'" +:+ type_name (Atom ANone) +:+
                       "' object does not support item assignment"))) /\
  _get_publish_path example_get_property example_super_path tx_settings
                    (set_local "fields" (Atom ANone) bare_item) =
    example_super_path tx_settings (set_local "fields" (Atom ANone) bare_item).
Proof.
  apply (get_publish_path_fields_not_a_dict example_get_property
           example_super_path tx_settings bare_item
           {| value := AStr "tx" |} ANone).
  - reflexivity.
  - reflexivity.
  - reflexivity.
Defined.

(** X27: the first extension stays. After [_get_publish_path] has overridden
    the fields with one extension, and with a base class that leaves the
    item alone, a later [_get_publish_name] with another extension in its
    settings calls the base class on the same item: the local fields still
    carry the first extension. *)
Theorem get_publish_name_keeps_first_extension
    (get_property : Item -> string -> pyvalue)
    (super_path super_name : gmap string Setting -> P string)
    (first later : gmap string Setting) (item : Item)
    (extension extension' : Setting) (d : gmap string atom) :
  first !! "publish_extension"%string = Some extension ->
  later !! "publish_extension"%string = Some extension' ->
  local_properties item !! "fields"%string = None ->
  get_property item "fields" = Dict d ->
  (forall settings it, (super_path settings it).1 = it) ->
  let item' :=
    (_get_publish_path get_property super_path first item).1 in
  local_properties item' !! "fields"%string =
    Some (Dict (<["extension"%string := value extension]> d)) /\
  _get_publish_name get_property super_name later item' =
    super_name later item'.
Proof.
  intros Hfirst Hlater Hnone Hfields Hsuper. cbn zeta.
  unfold _get_publish_path. rewrite Hfirst, Hnone, Hfields, Hsuper.
  rewrite set_local_twice.
  assert (Hlocal : local_properties
            (set_local "fields"
               (Dict (<["extension"%string := value extension]> d)) item)
            !! "fields"%string
          = Some (Dict (<["extension"%string := value extension]> d)))
    by (simpl; apply lookup_insert_eq).
  split; [exact Hlocal|].
  unfold _get_publish_name. by rewrite Hlater, Hlocal.
Qed.

Lemma get_publish_name_keeps_first_extension_witness :
  local_properties
    (_get_publish_path example_get_property example_super_path tx_settings
                       fresh_item).1 !! "fields"%string =
    Some (Dict (<["extension"%string := value {| value := AStr "tx" |}]>
                  exr_fields)) /\
  _get_publish_name example_get_property example_super_name tif_settings
    (_get_publish_path example_get_property example_super_path tx_settings
                       fresh_item).1 =
    example_super_name tif_settings
      (_get_publish_path example_get_property example_super_path tx_settings
                         fresh_item).1.
Proof.
  apply (get_publish_name_keeps_first_extension example_get_property
           example_super_path example_super_name tx_settings tif_settings
           fresh_item {| value := AStr "tx" |} {| value := AStr "tif" |}
           exr_fields).
  - reflexivity.
  - reflexivity.
  - reflexivity.
  - reflexivity.
  - reflexivity.
Defined.

(** On the example the name asked for with a [tif] setting still ends in
    [tx], the extension of the first call. *)
Example get_publish_name_after_path :
  (_get_publish_name example_get_property example_super_name tif_settings
     (_get_publish_path example_get_property example_super_path tx_settings
                        fresh_item).1).2
  = Return "diffuse.tx"%string.
Proof. vm_compute. reflexivity. Qed.

End PublishPathProps.

(** ** The local plugin of the test fixtures *)

Module GenericLocalProps.
Import Mipmaps Examples.

(** X28: what [accept] writes is there at [validate]. With
    [TEST_LOCAL_PROPERTIES] in the environment, the [validate] of the plugin
    instance that accepted the item raises the exception that tells the
    local property was kept, and logs nothing. *)
Theorem validate_after_accept_raises
    (environ : gset string) (key : string) (item : Item) (tr : list event) :
  "TEST_LOCAL_PROPERTIES"%string ∈ environ ->
  GenericLocal.validate environ key (GenericLocal.accept key item).1 tr =
  (tr, inl (GenericLocal.Exception "local_properties was serialized properly.")).
Proof.
  intros Henv. unfold GenericLocal.validate, GenericLocal.local_plugin_name,
    GenericLocal.accept, generic_local_accept.
  rewrite bool_decide_eq_true_2 by exact Henv. cbn [fst].
  rewrite DependencyProps.lookup_set_local_property. simpl.
  by rewrite lookup_insert_eq.
Qed.

Lemma validate_after_accept_raises_witness :
  GenericLocal.validate {[ "HOME"%string; "TEST_LOCAL_PROPERTIES"%string ]}
    "{config}/generic_local.py"
    (GenericLocal.accept "{config}/generic_local.py" channel_item).1 [] =
  ([], inl (GenericLocal.Exception "local_properties was serialized properly.")).
Proof.
  apply (validate_after_accept_raises
           {[ "HOME"%string; "TEST_LOCAL_PROPERTIES"%string ]}
           "{config}/generic_local.py" channel_item []).
  apply (bool_decide_unpack _). vm_compute. exact I.
Defined.

(** X29: without [TEST_LOCAL_PROPERTIES] in the environment [validate]
    accepts every item, whatever its local properties, after one debug
    record. *)
Theorem validate_without_test_variable
    (environ : gset string) (key : string) (item : Item) (tr : list event) :
  "TEST_LOCAL_PROPERTIES"%string ∉ environ ->
  GenericLocal.validate environ key item tr =
  (tr ++ [Log LDebug "Executing local plugin validate."], inr true).
Proof.
  intros Henv. unfold GenericLocal.validate.
  by rewrite bool_decide_eq_false_2 by exact Henv.
Qed.

Lemma validate_without_test_variable_witness :
  GenericLocal.validate {[ "HOME"%string ]} "{config}/generic_local.py"
    (GenericLocal.accept "{config}/generic_local.py" channel_item).1 [] =
  ([] ++ [Log LDebug "Executing local plugin validate."], inr true).
Proof.
  apply (validate_without_test_variable {[ "HOME"%string ]}
           "{config}/generic_local.py"
           (GenericLocal.accept "{config}/generic_local.py" channel_item).1 []).
  apply (bool_decide_unpack _). vm_compute. exact I.
Defined.

(** X30: the tag of one plugin instance is not seen by another. With
    [TEST_LOCAL_PROPERTIES] in the environment, when the item was accepted
    by the instance [key'] only, the [validate] of another instance [key],
    which never set [plugin_name], fails with an [AttributeError] instead
    of the exception of X28. *)
Theorem validate_after_foreign_accept
    (environ : gset string) (key key' : string) (item : Item)
    (tr : list event) :
  "TEST_LOCAL_PROPERTIES"%string ∈ environ ->
  key' <> key ->
  default ∅ (_local_properties item !! key) !! "plugin_name"%string = None ->
  GenericLocal.validate environ key (GenericLocal.accept key' item).1 tr =
  (tr, inl (GenericLocal.AttributeError
              "'PublishData' object has no attribute 'plugin_name'")).
Proof.
  intros Henv Hne Hnone. unfold GenericLocal.validate,
    GenericLocal.local_plugin_name, GenericLocal.accept, generic_local_accept.
  rewrite bool_decide_eq_true_2 by exact Henv. cbn [fst].
  rewrite (DependencyProps.lookup_set_local_property_ne _ _ _ _ _ Hne).
  by rewrite Hnone.
Qed.

Lemma validate_after_foreign_accept_witness :
  GenericLocal.validate {[ "TEST_LOCAL_PROPERTIES"%string ]}
    "{config}/generic_remote.py"
    (GenericLocal.accept "{config}/generic_local.py" channel_item).1 [] =
  ([], inl (GenericLocal.AttributeError
              "'PublishData' object has no attribute 'plugin_name'")).
Proof.
  apply (validate_after_foreign_accept {[ "TEST_LOCAL_PROPERTIES"%string ]}
           "{config}/generic_remote.py" "{config}/generic_local.py"
           channel_item []).
  - apply (bool_decide_unpack _). vm_compute. exact I.
  - discriminate.
  - reflexivity.
Defined.

End GenericLocalProps.
